(** * Hub cluster controller: event routing and the staged sync

    A shallow embedding of [pkg/cluster/controller.go].  The controller
    watches managed clusters and manifest works on the hub, routes their
    change notifications to a queue of cluster names, and for every name
    runs [sync], which drives two manifest works (subscription, then MCH)
    for that cluster.

    Go values are modelled as follows.
    - A Go [error] is an [error] record; a nil error is the absence of one.
      A call returning [(v, err)] is a [Res]: [Ok v] when [err] is nil,
      [Err e] otherwise (listers, clients and builders return a usable
      value exactly when the error is nil).
    - A [map[string]string] is an optional [gmap]: [None] is the nil map;
      indexing a nil map or a missing key yields the empty string.
    - A [*string] is an [option string]; dereferencing [None] panics.
    - Remote calls thread an explicit hub state and are recorded, with
      their results, in the order in which they are made. *)

From Stdlib Require Import String List Bool DecimalString Lia.
From stdpp Require Import base option list strings gmap.

Import ListNotations.
Open Scope string_scope.

(** ** Errors (k8s.io/apimachinery/pkg/api/errors) *)

Inductive StatusReason :=
| StatusReasonNotFound
| StatusReasonAlreadyExists
| StatusReasonConflict
| StatusReasonInternalError
| StatusReasonUnknown.

Record error := { Reason : StatusReason; Message : string }.

(** [errors.IsNotFound(err)] for a non-nil [err]; on nil it is false. *)
Definition IsNotFound (err : error) : bool :=
  match Reason err with
  | StatusReasonNotFound => true
  | _ => false
  end.

Inductive Res (A : Type) :=
| Ok (a : A)
| Err (e : error).
Arguments Ok {A} a.
Arguments Err {A} e.

(** ** Object metadata (metav1.ObjectMeta) *)

Record ObjectMeta := {
  Name : string;
  Namespace : string;
  Labels : option (gmap string string);
  Annotations : option (gmap string string);
  ResourceVersion : string;
}.

(** [m[k]] on a Go map: the zero value when [m] is nil or [k] is absent. *)
Definition mapIndex (m : option (gmap string string)) (k : string) : string :=
  match m with
  | None => ""
  | Some g => default "" (g !! k)
  end.

Definition GetName (m : ObjectMeta) : string := Name m.
Definition GetNamespace (m : ObjectMeta) : string := Namespace m.
Definition GetLabels (m : ObjectMeta) : option (gmap string string) := Labels m.

(** ** Managed clusters and manifest works (open-cluster-management.io/api) *)

Record ManagedCluster := { mc_ObjectMeta : ObjectMeta }.

Record FieldValue := {
  fv_Integer : option Z;
  fv_String : option string;
  fv_Boolean : option bool;
}.

Record FeedbackValue := { fb_Name : string; fb_Value : FieldValue }.

Record StatusFeedbackResult := { Values : list FeedbackValue }.

Record ManifestResourceMeta := {
  rm_Kind : string;
  rm_Name : string;
  rm_Namespace : string;
}.

Record ManifestCondition := {
  ResourceMeta : ManifestResourceMeta;
  StatusFeedbacks : StatusFeedbackResult;
}.

Record ManifestResourceStatus := { Manifests : list ManifestCondition }.

Record ManifestWorkStatus := { ResourceStatus : ManifestResourceStatus }.

(** The payload of a manifest work: the raw manifests of its workload.
    The controller never looks inside. *)
Record ManifestWorkSpec := { Workload : list string }.

Record ManifestWork := {
  mw_ObjectMeta : ObjectMeta;
  Spec : ManifestWorkSpec;
  Status : ManifestWorkStatus;
}.

(** [resourceapply.ResourceCache] (library-go): for an object, identified
    by name, namespace and kind, the hash and the resource version last
    applied.  [NewResourceCache] is the empty cache. *)
Definition ResourceCache : Type := gmap (string * string * string) (string * string).
Definition NewResourceCache : ResourceCache := ∅.

(** ** The rest of package [cluster]

    [controller.go] uses two constants and three functions of its package
    that are declared in other files: the name suffixes of the two manifest
    works of a cluster, the builders of their desired content, and the
    comparison of an existing work with a desired one.  They are modelled
    as pure functions of the works and names they are given, which they
    leave unmodified. *)
Class Package := {
  HOH_HUB_CLUSTER_SUBSCRIPTION : string;
  HOH_HUB_CLUSTER_MCH : string;
  CreateSubManifestwork : string -> ManifestWork;
  CreateMCHManifestwork : string -> string -> Res ManifestWork;
  EnsureManifestWork : ManifestWork -> ManifestWork -> Res bool;
}.

(** How an invocation ends: [return err] (nil is [None]) or a panic. *)
Inductive Outcome :=
| Returned (err : option error)
| Panicked.

Inductive Step (A : Type) :=
| Next (a : A)
| Stop (o : Outcome).
Arguments Next {A} a.
Arguments Stop {A} o.

Section Controller.

Context `{Package}.

(** ** Event routing

    The objects an informer hands to a filter are dynamically typed. *)

Inductive Object :=
| ObjManagedCluster (mc : ManagedCluster)
| ObjManifestWork (mw : ManifestWork)
| ObjOther (description : string).

(** [meta.Accessor]: fails on a value that carries no object metadata. *)
Definition Accessor (obj : Object) : Res ObjectMeta :=
  match obj with
  | ObjManagedCluster mc => Ok (mc_ObjectMeta mc)
  | ObjManifestWork mw => Ok (mw_ObjectMeta mw)
  | ObjOther _ => Err {| Reason := StatusReasonUnknown;
                         Message := "object does not implement the Object interfaces" |}
  end.

(** Queue key of a managed cluster event (controller.go:46-49).  The error
    of [meta.Accessor] is discarded; calling [GetName] on the nil accessor
    it returns on failure panics, which is [None] here. *)
Definition clusterQueueKey (obj : Object) : option string :=
  match Accessor obj with
  | Ok accessor => Some (GetName accessor)
  | Err _ => None
  end.

(** Filter of managed cluster events (controller.go:50-61). *)
Definition clusterFilter (obj : Object) : bool :=
  match Accessor obj with
  | Err _ => false
  | Ok accessor =>
      if String.eqb (mapIndex (GetLabels accessor) "hoh") "disabled"
         || String.eqb (GetName accessor) "local-cluster"
      then false
      else true
  end.

(** Queue key of a manifest work event (controller.go:63-66). *)
Definition workQueueKey (obj : Object) : option string :=
  match Accessor obj with
  | Ok accessor => Some (GetNamespace accessor)
  | Err _ => None
  end.

(** Filter of manifest work events (controller.go:67-78). *)
Definition workFilter (obj : Object) : bool :=
  match Accessor obj with
  | Err _ => false
  | Ok accessor =>
      if String.eqb (GetName accessor)
           ((GetNamespace accessor +:+ "-") +:+ HOH_HUB_CLUSTER_SUBSCRIPTION)
         || String.eqb (GetName accessor)
              ((GetNamespace accessor +:+ "-") +:+ HOH_HUB_CLUSTER_MCH)
      then true
      else false
  end.

(** What a change notification leads to. *)
Inductive Routed :=
| Dropped
| Enqueued (key : string)
| KeyFault.

(** What the handler does with one object it is handed: the filter is
    applied and, when it passes, the key of the object is added to the
    queue.  This is the whole handling of an add and of a delete; an
    update brings two objects and is handled by [filteringEventHandler]
    below. *)
Definition filteredEventHandler
    (queueKeyFn : Object -> option string) (filter : Object -> bool)
    (obj : Object) : Routed :=
  if filter obj then
    match queueKeyFn obj with
    | Some key => Enqueued key
    | None => KeyFault
    end
  else Dropped.

(** The two registrations of [NewHubClusterController], on one object. *)
Definition onClusterEvent : Object -> Routed :=
  filteredEventHandler clusterQueueKey clusterFilter.

Definition onWorkEvent : Object -> Routed :=
  filteredEventHandler workQueueKey workFilter.

(** A change notification of an informer. *)
Inductive Notification :=
| Added (obj : Object)
| Updated (old new : Object)
| Deleted (obj : Object).

(** Adding the key of an object to the queue. *)
Definition enqueue (queueKeyFn : Object -> option string) (obj : Object)
  : Routed :=
  match queueKeyFn obj with
  | Some key => Enqueued key
  | None => KeyFault
  end.

(** [WithFilteredEventsInformersQueueKeyFunc queueKeyFn filter informer]:
    the handler the factory installs on the informer.  It is client-go's
    filtering handler around a handler that adds [queueKeyFn] of its object
    to the queue (of the new object, for an update).  The filtering handler
    passes on an add or a delete whose object passes the filter.  On an
    update it filters both objects: when both pass it passes on the
    update, when only the new one passes it passes on an add of the new
    one, when only the old one passes it passes on a delete of the old
    one, and otherwise nothing. *)
Definition filteringEventHandler
    (queueKeyFn : Object -> option string) (filter : Object -> bool)
    (n : Notification) : Routed :=
  match n with
  | Added obj => if filter obj then enqueue queueKeyFn obj else Dropped
  | Updated old new =>
      let newer := filter new in
      let older := filter old in
      if newer && older then enqueue queueKeyFn new
      else if newer && negb older then enqueue queueKeyFn new
      else if negb newer && older then enqueue queueKeyFn old
      else Dropped
  | Deleted obj => if filter obj then enqueue queueKeyFn obj else Dropped
  end.

(** The two registrations of [NewHubClusterController]. *)
Definition onClusterNotification : Notification -> Routed :=
  filteringEventHandler clusterQueueKey clusterFilter.

Definition onWorkNotification : Notification -> Routed :=
  filteringEventHandler workQueueKey workFilter.


(** The object whose key a notification can add: the object of an add or
    of a delete, the new object of an update, or the old object of an
    update whose new object the filter turns away. *)
Definition decidingObject (filter : Object -> bool) (n : Notification)
    (obj : Object) : Prop :=
  match n with
  | Added o => obj = o
  | Deleted o => obj = o
  | Updated old new => obj = new \/ (obj = old /\ filter new = false)
  end.

(** ** The controller and the hub it talks to *)

(** The two manifest works of a cluster; in the record of calls a stage
    names the call site (subscription: controller.go:97-118, MCH:
    controller.go:139-159). *)
Inductive Stage := Subscription | ManagementHub.

(** State of the hub: what the listers read and the work client writes. *)
Context {W : Type}.

(** The interfaces the controller holds.  A lister reads the hub state; a
    client call may change it.  The first argument of a work lister or
    client call is the namespace of [ManifestWorks(namespace)]. *)
Record clusterController := {
  workclient_Create : string -> ManifestWork -> W -> Res ManifestWork * W;
  workclient_Update : string -> ManifestWork -> W -> Res ManifestWork * W;
  clusterLister_Get : string -> W -> Res ManagedCluster;
  workLister_Get : string -> string -> W -> Res ManifestWork;
}.

(** Calls made on the interfaces and on the comparison, with results. *)
Inductive Event :=
| EvClusterGet (name : string) (r : Res ManagedCluster)
| EvWorkGet (s : Stage) (ns name : string) (r : Res ManifestWork)
| EvCreate (s : Stage) (ns : string) (obj : ManifestWork) (r : Res ManifestWork)
| EvUpdate (s : Stage) (ns : string) (obj : ManifestWork) (r : Res ManifestWork)
| EvEnsure (s : Stage) (existing desired : ManifestWork) (r : Res bool).

(** What [sync] runs in: the hub, the content of the object behind the
    controller's [cache] field, and the calls made so far, oldest first. *)
Record SyncState := {
  hub : W;
  cache : ResourceCache;
  calls : list Event;
}.

Definition record (ev : Event) (st : SyncState) : SyncState :=
  {| hub := hub st; cache := cache st; calls := calls st ++ [ev] |}.

Definition setHub (w : W) (st : SyncState) : SyncState :=
  {| hub := w; cache := cache st; calls := calls st |}.

(** State and early exit. *)
Definition M (A : Type) : Type := SyncState -> Step A * SyncState.

#[global] Instance M_ret : MRet M := fun A a st => (Next a, st).

#[global] Instance M_bind : MBind M := fun A B k m st =>
  match m st with
  | (Next a, st') => k a st'
  | (Stop o, st') => (Stop o, st')
  end.

Definition returnErr {A} (err : error) : M A :=
  fun st => (Stop (Returned (Some err)), st).

Definition returnNil {A} : M A :=
  fun st => (Stop (Returned None), st).

Definition panic {A} : M A :=
  fun st => (Stop Panicked, st).

(** [c.clusterLister.Get(name)] *)
Definition clusterGet (c : clusterController) (name : string)
  : M (Res ManagedCluster) :=
  fun st =>
    let r := clusterLister_Get c name (hub st) in
    (Next r, record (EvClusterGet name r) st).

(** [c.workLister.ManifestWorks(ns).Get(name)] *)
Definition workGet (c : clusterController) (s : Stage) (ns name : string)
  : M (Res ManifestWork) :=
  fun st =>
    let r := workLister_Get c ns name (hub st) in
    (Next r, record (EvWorkGet s ns name r) st).

(** [c.workclient.ManifestWorks(ns).Create(ctx, obj, metav1.CreateOptions{})] *)
Definition workCreate (c : clusterController) (s : Stage) (ns : string)
    (obj : ManifestWork) : M (Res ManifestWork) :=
  fun st =>
    let '(r, w) := workclient_Create c ns obj (hub st) in
    (Next r, record (EvCreate s ns obj r) (setHub w st)).

(** [c.workclient.ManifestWorks(ns).Update(ctx, obj, metav1.UpdateOptions{})] *)
Definition workUpdate (c : clusterController) (s : Stage) (ns : string)
    (obj : ManifestWork) : M (Res ManifestWork) :=
  fun st =>
    let '(r, w) := workclient_Update c ns obj (hub st) in
    (Next r, record (EvUpdate s ns obj r) (setHub w st)).

(** [EnsureManifestWork(existing, desired)] *)
Definition ensure (s : Stage) (existing desired : ManifestWork)
  : M (Res bool) :=
  fun st =>
    let r := EnsureManifestWork existing desired in
    (Next r, record (EvEnsure s existing desired r) st).

(** [obj.ObjectMeta.ResourceVersion = rv] *)
Definition setResourceVersion (obj : ManifestWork) (rv : string) : ManifestWork :=
  {| mw_ObjectMeta :=
       {| Name := Name (mw_ObjectMeta obj);
          Namespace := Namespace (mw_ObjectMeta obj);
          Labels := Labels (mw_ObjectMeta obj);
          Annotations := Annotations (mw_ObjectMeta obj);
          ResourceVersion := rv |};
     Spec := Spec obj;
     Status := Status obj |}.

(** ** sync *)

(** The user defined MCH of a managed cluster (controller.go:130-133): the
    annotation "mch" when the cluster has annotations, else empty. *)
Definition userDefinedMCHOf (managedCluster : ManagedCluster) : string :=
  match Annotations (mc_ObjectMeta managedCluster) with
  | Some _ => mapIndex (Annotations (mc_ObjectMeta managedCluster)) "mch"
  | None => ""
  end.

(** The body run when the subscription reports the awaited state
    (controller.go:129-164).  In the not-found branch the error of [Create]
    is a new variable of that block, so the check that follows the block
    sees the error of the lookup. *)
Definition syncMCH (c : clusterController) (managedClusterName : string)
    (managedCluster : ManagedCluster) : M unit :=
  let userDefinedMCH := userDefinedMCHOf managedCluster in
  match CreateMCHManifestwork managedClusterName userDefinedMCH with
  | Err err => returnErr err
  | Ok desiredMCH =>
      r ← workGet c ManagementHub managedClusterName
            ((managedClusterName +:+ "-") +:+ HOH_HUB_CLUSTER_MCH);
      match r with
      | Err err =>
          (if IsNotFound err then
             r' ← workCreate c ManagementHub managedClusterName desiredMCH;
             match r' with
             | Err err' => returnErr err'
             | Ok _ => mret tt
             end
           else mret tt);;
          returnErr err
      | Ok mch =>
          u ← ensure ManagementHub mch desiredMCH;
          match u with
          | Err err => returnErr err
          | Ok updated =>
              (if (updated : bool) then
                 r' ← workUpdate c ManagementHub managedClusterName
                        (setResourceVersion desiredMCH
                           (ResourceVersion (mw_ObjectMeta mch)));
                 match r' with
                 | Err err' => returnErr err'
                 | Ok _ => mret tt
                 end
               else mret tt);;
              returnNil
          end
      end
  end.

(** The inner loop (controller.go:127-166): the first value named "state"
    decides alone when its string is the awaited one; its string pointer is
    dereferenced without a check. *)
Fixpoint forValues (body : M unit) (values : list FeedbackValue) : M unit :=
  match values with
  | [] => mret tt
  | value :: rest =>
      if String.eqb (fb_Name value) "state" then
        match fv_String (fb_Value value) with
        | None => panic
        | Some s =>
            if String.eqb s "AtLatestKnown" then body;; returnNil
            else forValues body rest
        end
      else forValues body rest
  end.

(** The outer loop (controller.go:125-168). *)
Fixpoint forManifests (body : M unit) (manifests : list ManifestCondition)
  : M unit :=
  match manifests with
  | [] => mret tt
  | conditions :: rest =>
      (if String.eqb (rm_Kind (ResourceMeta conditions)) "Subscription" then
         forValues body (Values (StatusFeedbacks conditions))
       else mret tt);;
      forManifests body rest
  end.

(** controller.go:83-171 *)
Definition sync (c : clusterController) (managedClusterName : string) : M unit :=
  r ← clusterGet c managedClusterName;
  match r with
  | Err err => if IsNotFound err then returnNil else returnErr err
  | Ok managedCluster =>
      let desiredSubscription := CreateSubManifestwork managedClusterName in
      r ← workGet c Subscription managedClusterName
            ((managedClusterName +:+ "-") +:+ HOH_HUB_CLUSTER_SUBSCRIPTION);
      match r with
      | Err err =>
          if IsNotFound err then
            r' ← workCreate c Subscription managedClusterName desiredSubscription;
            match r' with
            | Err err' => returnErr err'
            | Ok _ => returnNil
            end
          else returnErr err
      | Ok subscription =>
          u ← ensure Subscription subscription desiredSubscription;
          match u with
          | Err err => returnErr err
          | Ok updated =>
              (if (updated : bool) then
                 r' ← workUpdate c Subscription managedClusterName
                        (setResourceVersion desiredSubscription
                           (ResourceVersion (mw_ObjectMeta subscription)));
                 match r' with
                 | Err err' => returnErr err'
                 | Ok _ => mret tt
                 end
               else mret tt);;
              forManifests (syncMCH c managedClusterName managedCluster)
                (Manifests (ResourceStatus (Status subscription)));;
              returnNil
          end
      end
  end.

(** What [NewHubClusterController] hands to the factory
    (controller.go:32-81): a controller over the given interfaces whose
    cache is new, the handlers of the two filtered registrations, and
    [sync] as the function run for a key. *)
Record HubClusterController := {
  newCache : ResourceCache;
  onCluster : Notification -> Routed;
  onWork : Notification -> Routed;
  syncFunc : string -> M unit;
}.

Definition NewHubClusterController (c : clusterController)
  : HubClusterController :=
  {| newCache := NewResourceCache;
     onCluster := onClusterNotification;
     onWork := onWorkNotification;
     syncFunc := sync c |}.

(** One invocation from a hub state [w] with cache content [k]: how it
    ends and the state it leaves, whose [calls] are those it made. *)
Definition finish (r : Step unit * SyncState) : Outcome * SyncState :=
  match r with
  | (Stop o, st) => (o, st)
  | (Next _, st) => (Returned None, st)
  end.

Definition runSync (c : clusterController) (managedClusterName : string)
    (w : W) (k : ResourceCache) : Outcome * SyncState :=
  finish (sync c managedClusterName {| hub := w; cache := k; calls := [] |}).

(** ** Reading a record of calls *)

Definition stageOf (ev : Event) : option Stage :=
  match ev with
  | EvClusterGet _ _ => None
  | EvWorkGet s _ _ _ => Some s
  | EvCreate s _ _ _ => Some s
  | EvUpdate s _ _ _ => Some s
  | EvEnsure s _ _ _ => Some s
  end.

(** Create and update calls. *)
Definition isWrite (ev : Event) : bool :=
  match ev with
  | EvCreate _ _ _ _ => true
  | EvUpdate _ _ _ _ => true
  | _ => false
  end.

Definition writes (evs : list Event) : list Event := List.filter isWrite evs.

(** A create carries the desired work of its stage, an update that work
    with the resource version of some existing work, and both go to the
    namespace of the key. *)
Definition desiredContent (c : clusterController) (key : string) (w : W)
    (ev : Event) : Prop :=
  match ev with
  | EvCreate Subscription ns obj _ =>
      ns = key /\ obj = CreateSubManifestwork key
  | EvCreate ManagementHub ns obj _ =>
      ns = key /\
      exists managedCluster,
        clusterLister_Get c key w = Ok managedCluster /\
        CreateMCHManifestwork key (userDefinedMCHOf managedCluster) = Ok obj
  | EvUpdate Subscription ns obj _ =>
      ns = key /\
      exists existing,
        obj = setResourceVersion (CreateSubManifestwork key)
                (ResourceVersion (mw_ObjectMeta existing))
  | EvUpdate ManagementHub ns obj _ =>
      ns = key /\
      exists managedCluster desiredMCH existing,
        clusterLister_Get c key w = Ok managedCluster /\
        CreateMCHManifestwork key (userDefinedMCHOf managedCluster)
          = Ok desiredMCH /\
        obj = setResourceVersion desiredMCH
                (ResourceVersion (mw_ObjectMeta existing))
  | _ => True
  end.

(** A write the hub accepted. *)
Definition succeeded (ev : Event) : Prop :=
  match ev with
  | EvCreate _ _ _ (Err _) => False
  | EvUpdate _ _ _ (Err _) => False
  | _ => True
  end.

(** ** The gate of the second stage, as a function of the status *)

Inductive Gate := GateOpen | GateClosed | GateFault.

Fixpoint gateValues (values : list FeedbackValue) : Gate :=
  match values with
  | [] => GateClosed
  | value :: rest =>
      if String.eqb (fb_Name value) "state" then
        match fv_String (fb_Value value) with
        | None => GateFault
        | Some s => if String.eqb s "AtLatestKnown" then GateOpen
                    else gateValues rest
        end
      else gateValues rest
  end.

Fixpoint gateManifests (manifests : list ManifestCondition) : Gate :=
  match manifests with
  | [] => GateClosed
  | conditions :: rest =>
      if String.eqb (rm_Kind (ResourceMeta conditions)) "Subscription" then
        match gateValues (Values (StatusFeedbacks conditions)) with
        | GateClosed => gateManifests rest
        | g => g
        end
      else gateManifests rest
  end.

Definition gate (status : ManifestWorkStatus) : Gate :=
  gateManifests (Manifests (ResourceStatus status)).

(** [value] is a feedback value named "state" of a manifest of kind
    "Subscription" in [status]. *)
Definition stateValueOf (status : ManifestWorkStatus) (value : FeedbackValue)
  : Prop :=
  exists conditions,
    In conditions (Manifests (ResourceStatus status)) /\
    rm_Kind (ResourceMeta conditions) = "Subscription" /\
    In value (Values (StatusFeedbacks conditions)) /\
    fb_Name value = "state".

(** The status carries the signal the second stage waits for. *)
Definition reportsAtLatestKnown (status : ManifestWorkStatus) : Prop :=
  exists value,
    stateValueOf status value /\
    fv_String (fb_Value value) = Some "AtLatestKnown".

(** Every "state" value of a subscription manifest has its string set. *)
Definition stateStringsPresent (status : ManifestWorkStatus) : Prop :=
  forall value,
    stateValueOf status value -> fv_String (fb_Value value) <> None.

(** ** When a second invocation has nothing to write *)

(** Two works agree on everything but the resource version and the
    status, which the hub manages. *)
Definition sameContent (a b : ManifestWork) : Prop :=
  Name (mw_ObjectMeta a) = Name (mw_ObjectMeta b) /\
  Namespace (mw_ObjectMeta a) = Namespace (mw_ObjectMeta b) /\
  Labels (mw_ObjectMeta a) = Labels (mw_ObjectMeta b) /\
  Annotations (mw_ObjectMeta a) = Annotations (mw_ObjectMeta b) /\
  Spec a = Spec b.

(** What the design expects of the other files of the package: the two
    suffixes differ, a builder names its work [<cluster>-<suffix>], and
    the comparison asks for no write when the existing work has the desired
    content. *)
Record Conventions : Prop := {
  suffixes_differ : HOH_HUB_CLUSTER_SUBSCRIPTION <> HOH_HUB_CLUSTER_MCH;
  subscription_named : forall name,
    Name (mw_ObjectMeta (CreateSubManifestwork name))
      = (name +:+ "-") +:+ HOH_HUB_CLUSTER_SUBSCRIPTION;
  mch_named : forall name userDefinedMCH desired,
    CreateMCHManifestwork name userDefinedMCH = Ok desired ->
    Name (mw_ObjectMeta desired) = (name +:+ "-") +:+ HOH_HUB_CLUSTER_MCH;
  ensure_same_content : forall existing desired,
    sameContent existing desired ->
    EnsureManifestWork existing desired = Ok false;
}.

(** A hub that applies the writes it accepts and shows them to the listers
    at once: an accepted create or update leaves the managed clusters and
    the other works as they were, and the work written is then read with
    the content written; a created work has no status yet, an updated one
    keeps the status it had. *)
Record AppliesWrites (c : clusterController) : Prop := {
  create_keeps_clusters : forall ns obj w r w' name,
    workclient_Create c ns obj w = (Ok r, w') ->
    clusterLister_Get c name w' = clusterLister_Get c name w;
  create_keeps_others : forall ns obj w r w' ns' name',
    workclient_Create c ns obj w = (Ok r, w') ->
    (ns', name') <> (ns, Name (mw_ObjectMeta obj)) ->
    workLister_Get c ns' name' w' = workLister_Get c ns' name' w;
  create_stores : forall ns obj w r w',
    workclient_Create c ns obj w = (Ok r, w') ->
    exists new,
      workLister_Get c ns (Name (mw_ObjectMeta obj)) w' = Ok new /\
      sameContent new obj /\
      Manifests (ResourceStatus (Status new)) = [];
  update_keeps_clusters : forall ns obj w r w' name,
    workclient_Update c ns obj w = (Ok r, w') ->
    clusterLister_Get c name w' = clusterLister_Get c name w;
  update_keeps_others : forall ns obj w r w' ns' name',
    workclient_Update c ns obj w = (Ok r, w') ->
    (ns', name') <> (ns, Name (mw_ObjectMeta obj)) ->
    workLister_Get c ns' name' w' = workLister_Get c ns' name' w;
  update_stores : forall ns obj w r w' existing,
    workclient_Update c ns obj w = (Ok r, w') ->
    workLister_Get c ns (Name (mw_ObjectMeta obj)) w = Ok existing ->
    exists new,
      workLister_Get c ns (Name (mw_ObjectMeta obj)) w' = Ok new /\
      sameContent new obj /\
      Status new = Status existing;
}.

(** A hub state in which the second stage finds nothing to write. *)
Definition mchSettled (c : clusterController) (key : string)
    (managedCluster : ManagedCluster) (w : W) : Prop :=
  match CreateMCHManifestwork key (userDefinedMCHOf managedCluster) with
  | Err _ => True
  | Ok desiredMCH =>
      match workLister_Get c key ((key +:+ "-") +:+ HOH_HUB_CLUSTER_MCH) w with
      | Err err => IsNotFound err = false
      | Ok mch => EnsureManifestWork mch desiredMCH <> Ok true
      end
  end.

(** A hub state in which an invocation finds nothing to write. *)
Definition settled (c : clusterController) (key : string) (w : W) : Prop :=
  match clusterLister_Get c key w with
  | Err _ => True
  | Ok managedCluster =>
      match workLister_Get c key
              ((key +:+ "-") +:+ HOH_HUB_CLUSTER_SUBSCRIPTION) w with
      | Err err => IsNotFound err = false
      | Ok subscription =>
          match EnsureManifestWork subscription (CreateSubManifestwork key) with
          | Err _ => True
          | Ok true => False
          | Ok false =>
              match gate (Status subscription) with
              | GateOpen => mchSettled c key managedCluster w
              | _ => True
              end
          end
      end
  end.

End Controller.

(** ** A reference hub

    An API server holding managed clusters and manifest works, read
    through listers that see every accepted write at once.  A create is
    accepted when no work of that name exists in the namespace; the stored
    work starts without status.  An update is accepted when it carries the
    resource version of the stored work; it replaces the content and keeps
    the status, which only the work agent writes.  Every accepted write
    gives the work a new resource version. *)

Record Store := {
  clusters : gmap string ManagedCluster;
  works : gmap (string * string) ManifestWork;
  revision : nat;
}.

Definition statusError (reason : StatusReason) (message : string) : error :=
  {| Reason := reason; Message := message |}.

Definition emptyStatus : ManifestWorkStatus :=
  {| ResourceStatus := {| Manifests := [] |} |}.

Definition revisionString (n : nat) : string :=
  NilZero.string_of_uint (Nat.to_uint n).

Definition stored (obj : ManifestWork) (status : ManifestWorkStatus) (n : nat)
  : ManifestWork :=
  {| mw_ObjectMeta :=
       {| Name := Name (mw_ObjectMeta obj);
          Namespace := Namespace (mw_ObjectMeta obj);
          Labels := Labels (mw_ObjectMeta obj);
          Annotations := Annotations (mw_ObjectMeta obj);
          ResourceVersion := revisionString n |};
     Spec := Spec obj;
     Status := status |}.

Definition storeClusterGet (name : string) (w : Store) : Res ManagedCluster :=
  match clusters w !! name with
  | Some mc => Ok mc
  | None => Err (statusError StatusReasonNotFound "managedcluster not found")
  end.

Definition storeWorkGet (ns name : string) (w : Store) : Res ManifestWork :=
  match works w !! (ns, name) with
  | Some mw => Ok mw
  | None => Err (statusError StatusReasonNotFound "manifestwork not found")
  end.

Definition storeCreate (ns : string) (obj : ManifestWork) (w : Store)
  : Res ManifestWork * Store :=
  match works w !! (ns, Name (mw_ObjectMeta obj)) with
  | Some _ =>
      (Err (statusError StatusReasonAlreadyExists "manifestwork exists"), w)
  | None =>
      let new := stored obj emptyStatus (S (revision w)) in
      (Ok new,
       {| clusters := clusters w;
          works := <[(ns, Name (mw_ObjectMeta obj)) := new]> (works w);
          revision := S (revision w) |})
  end.

Definition storeUpdate (ns : string) (obj : ManifestWork) (w : Store)
  : Res ManifestWork * Store :=
  match works w !! (ns, Name (mw_ObjectMeta obj)) with
  | None =>
      (Err (statusError StatusReasonNotFound "manifestwork not found"), w)
  | Some existing =>
      if String.eqb (ResourceVersion (mw_ObjectMeta obj))
           (ResourceVersion (mw_ObjectMeta existing))
      then
        let new := stored obj (Status existing) (S (revision w)) in
        (Ok new,
         {| clusters := clusters w;
            works := <[(ns, Name (mw_ObjectMeta obj)) := new]> (works w);
            revision := S (revision w) |})
      else
        (Err (statusError StatusReasonConflict "the object has been modified"), w)
  end.

Definition storeController : clusterController :=
  {| workclient_Create := storeCreate;
     workclient_Update := storeUpdate;
     clusterLister_Get := storeClusterGet;
     workLister_Get := storeWorkGet |}.

(** The same hub while its API server refuses every write. *)
Definition serverDown : error :=
  statusError StatusReasonInternalError "the server is currently unable to handle the request".

Definition outageController : clusterController :=
  {| workclient_Create := fun _ _ (w : Store) => (Err serverDown, w);
     workclient_Update := fun _ _ (w : Store) => (Err serverDown, w);
     clusterLister_Get := storeClusterGet;
     workLister_Get := storeWorkGet |}.

(** A work as a builder makes it: named, in a namespace, with manifests,
    without resource version or status. *)
Definition referenceWork (ns name : string) (manifests : list string)
  : ManifestWork :=
  {| mw_ObjectMeta :=
       {| Name := name; Namespace := ns; Labels := None;
          Annotations := None; ResourceVersion := "" |};
     Spec := {| Workload := manifests |};
     Status := emptyStatus |}.

(** Modelled from the spec: the constants and functions of the package that
    [controller.go] uses and that are declared in its other files.  A work
    is named [<cluster>-<suffix>] and lives in the namespace of the
    cluster; the second stage takes the override when there is one and a
    default otherwise; the comparison looks at the authored payload only,
    never at the resource version or the status. *)
Definition referencePackage : Package :=
  {| HOH_HUB_CLUSTER_SUBSCRIPTION := "hoh-hub-cluster-subscription";
     HOH_HUB_CLUSTER_MCH := "hoh-hub-cluster-mch";
     CreateSubManifestwork := fun name =>
       referenceWork name ((name +:+ "-") +:+ "hoh-hub-cluster-subscription")
         ["operator subscription"];
     CreateMCHManifestwork := fun name userDefinedMCH =>
       Ok (referenceWork name ((name +:+ "-") +:+ "hoh-hub-cluster-mch")
             [if String.eqb userDefinedMCH "" then "default mch"
              else userDefinedMCH]);
     EnsureManifestWork := fun existing desired =>
       Ok (negb (bool_decide (Workload (Spec existing) = Workload (Spec desired))))
  |}.

(** ** Hub states used as concrete inputs *)

Definition metaOf (name : string) (labels : option (gmap string string))
  : ObjectMeta :=
  {| Name := name; Namespace := ""; Labels := labels; Annotations := None;
     ResourceVersion := "1" |}.

Definition cluster1 : ManagedCluster :=
  {| mc_ObjectMeta := metaOf "cluster1" None |}.


Definition enabledCluster2 : ManagedCluster :=
  {| mc_ObjectMeta := metaOf "cluster2" None |}.

Definition disabledCluster : ManagedCluster :=
  {| mc_ObjectMeta := metaOf "cluster2" (Some {[ "hoh" := "disabled" ]}) |}.

(** A status with one subscription manifest and one "state" value. *)
Definition subscriptionStatus (state : option string) : ManifestWorkStatus :=
  {| ResourceStatus :=
       {| Manifests :=
            [ {| ResourceMeta :=
                   {| rm_Kind := "Subscription";
                      rm_Name := "acm-operator-subscription";
                      rm_Namespace := "open-cluster-management" |};
                 StatusFeedbacks :=
                   {| Values :=
                        [ {| fb_Name := "state";
                             fb_Value := {| fv_Integer := None;
                                            fv_String := state;
                                            fv_Boolean := None |} |} ] |} |} ]
       |} |}.

Definition subscriptionName : string := "cluster1-hoh-hub-cluster-subscription".
Definition mchName : string := "cluster1-hoh-hub-cluster-mch".

(** The subscription work of cluster1 as the hub holds it: the desired
    content, or older manifests, with a status. *)
Definition desiredSubscription1 : ManifestWork :=
  @CreateSubManifestwork referencePackage "cluster1".

Definition outdatedSubscription1 : ManifestWork :=
  referenceWork "cluster1" subscriptionName ["operator subscription, older"].

(** No managed cluster at all. *)
Definition hubEmpty : Store :=
  {| clusters := ∅; works := ∅; revision := 1 |}.

(** cluster1 has joined; it has no work yet. *)
Definition hubJoined : Store :=
  {| clusters := {[ "cluster1" := cluster1 ]}; works := ∅; revision := 1 |}.

(** cluster1 has the subscription work [work], with status [status]. *)
Definition hubWith (work : ManifestWork) (status : ManifestWorkStatus) : Store :=
  {| clusters := {[ "cluster1" := cluster1 ]};
     works := {[ ("cluster1", subscriptionName) := stored work status 2 ]};
     revision := 2 |}.

(** The subscription is as desired and reports "AtLatestKnown". *)
Definition hubSubscribed : Store :=
  hubWith desiredSubscription1 (subscriptionStatus (Some "AtLatestKnown")).

(** The subscription is as desired and still installing. *)
Definition hubInstalling : Store :=
  hubWith desiredSubscription1 (subscriptionStatus (Some "UpgradePending")).

(** The subscription is as desired; its "state" value has no string. *)
Definition hubStateUnset : Store :=
  hubWith desiredSubscription1 (subscriptionStatus None).

(** The subscription has older manifests and is still installing. *)
Definition hubOutdated : Store :=
  hubWith outdatedSubscription1 (subscriptionStatus (Some "UpgradePending")).

(** The desired MCH work of cluster1, which asks for no override. *)
Definition desiredMCH1 : ManifestWork :=
  referenceWork "cluster1" mchName ["default mch"].

(** The update sync sends for the outdated subscription, stored by the hub
    under revision 2, and the work the hub returns for it. *)
Definition subscriptionUpdate1 : ManifestWork :=
  setResourceVersion desiredSubscription1 "2".

Definition subscriptionUpdated1 : ManifestWork :=
  stored desiredSubscription1 (subscriptionStatus (Some "UpgradePending")) 3.

Definition notFoundWork : error :=
  statusError StatusReasonNotFound "manifestwork not found".

(** One invocation for cluster1 on the reference hub. *)
Definition referenceRun (w : Store) : Outcome * SyncState :=
  @runSync referencePackage Store storeController "cluster1" w NewResourceCache.

(** ** More ways to read a record of calls *)

(** The error a call returned, if it failed. *)
Definition resultError (ev : Event) : option error :=
  match ev with
  | EvClusterGet _ (Err e) => Some e
  | EvWorkGet _ _ _ (Err e) => Some e
  | EvCreate _ _ _ (Err e) => Some e
  | EvUpdate _ _ _ (Err e) => Some e
  | EvEnsure _ _ _ (Err e) => Some e
  | _ => None
  end.

(** A lookup, of the managed cluster or of a work, that reported not-found. *)
Definition notFoundLookup (ev : Event) : Prop :=
  match ev with
  | EvClusterGet _ (Err e) => IsNotFound e = true
  | EvWorkGet _ _ _ (Err e) => IsNotFound e = true
  | _ => False
  end.

Definition isLookup (ev : Event) : bool :=
  match ev with
  | EvWorkGet _ _ _ _ => true
  | _ => false
  end.

Definition isCompare (ev : Event) : bool :=
  match ev with
  | EvEnsure _ _ _ _ => true
  | _ => false
  end.

Definition isCreate (ev : Event) : bool :=
  match ev with
  | EvCreate _ _ _ _ => true
  | _ => false
  end.

Definition inStage (s : Stage) (ev : Event) : bool :=
  match stageOf ev, s with
  | Some Subscription, Subscription => true
  | Some ManagementHub, ManagementHub => true
  | _, _ => false
  end.

(** How many calls of kind [p] an invocation made for stage [s]. *)
Definition countCalls (p : Event -> bool) (s : Stage) (evs : list Event) : nat :=
  length (List.filter (fun ev => p ev && inStage s ev) evs).

(** ** The state strings the loops of sync visit, in order *)

(** The feedback values of the manifests of kind "Subscription". *)
Definition subscriptionValues (manifests : list ManifestCondition)
  : list FeedbackValue :=
  flat_map
    (fun conditions =>
       if String.eqb (rm_Kind (ResourceMeta conditions)) "Subscription"
       then Values (StatusFeedbacks conditions) else [])
    manifests.

(** The string pointers of the values named "state". *)
Definition stateStrings (values : list FeedbackValue) : list (option string) :=
  map (fun value => fv_String (fb_Value value))
      (List.filter (fun value => String.eqb (fb_Name value) "state") values).

Definition statesOf (status : ManifestWorkStatus) : list (option string) :=
  stateStrings (subscriptionValues (Manifests (ResourceStatus status))).

(** The first string that is unset or "AtLatestKnown" decides. *)
Fixpoint decideStates (states : list (option string)) : Gate :=
  match states with
  | [] => GateClosed
  | None :: _ => GateFault
  | Some s :: rest =>
      if String.eqb s "AtLatestKnown" then GateOpen else decideStates rest
  end.

(** A state string that is set and is not "AtLatestKnown". *)
Definition otherState (state : option string) : Prop :=
  exists s, state = Some s /\ s <> "AtLatestKnown".

Section Observations.

Context `{Package} {W : Type}.

Definition suffixOf (s : Stage) : string :=
  match s with
  | Subscription => HOH_HUB_CLUSTER_SUBSCRIPTION
  | ManagementHub => HOH_HUB_CLUSTER_MCH
  end.

(** The name under which sync looks up the work of a stage. *)
Definition workName (key : string) (s : Stage) : string :=
  (key +:+ "-") +:+ suffixOf s.

(** The handling of the subscription work lets the invocation go on to
    the loops: the comparison asks for no update, or the update it asks for
    is accepted. *)
Definition reachesGate (c : @clusterController W) (key : string) (w : W)
    (subscription : ManifestWork) : Prop :=
  EnsureManifestWork subscription (CreateSubManifestwork key) = Ok false \/
  (EnsureManifestWork subscription (CreateSubManifestwork key) = Ok true /\
   exists r w',
     workclient_Update c key
       (setResourceVersion (CreateSubManifestwork key)
          (ResourceVersion (mw_ObjectMeta subscription))) w = (Ok r, w')).

End Observations.

(** ** More concrete inputs *)

(** cluster1 asking for an MCH of its own through the annotation "mch". *)
Definition cluster1With (mch : string) : ManagedCluster :=
  {| mc_ObjectMeta :=
       {| Name := "cluster1"; Namespace := ""; Labels := None;
          Annotations := Some {[ "mch" := mch ]}; ResourceVersion := "1" |} |}.

(** The subscription of cluster1 reports "AtLatestKnown" and cluster1
    carries the annotation. *)
Definition hubOverride (mch : string) : Store :=
  {| clusters := {[ "cluster1" := cluster1With mch ]};
     works := {[ ("cluster1", subscriptionName)
                 := stored desiredSubscription1
                      (subscriptionStatus (Some "AtLatestKnown")) 2 ]};
     revision := 2 |}.

(** The same with a subscription that has older manifests. *)
Definition hubOutdatedOverride (mch : string) : Store :=
  {| clusters := {[ "cluster1" := cluster1With mch ]};
     works := {[ ("cluster1", subscriptionName)
                 := stored outdatedSubscription1
                      (subscriptionStatus (Some "AtLatestKnown")) 2 ]};
     revision := 2 |}.

Definition invalidOverride : error :=
  statusError StatusReasonUnknown "user defined mch is not a manifest".

(** Modelled from the spec: a package like the reference one whose builder
    of the second stage rejects an override that is not a JSON object
    (building may fail on an invalid override). *)
Definition strictPackage : Package :=
  {| HOH_HUB_CLUSTER_SUBSCRIPTION := @HOH_HUB_CLUSTER_SUBSCRIPTION referencePackage;
     HOH_HUB_CLUSTER_MCH := @HOH_HUB_CLUSTER_MCH referencePackage;
     CreateSubManifestwork := @CreateSubManifestwork referencePackage;
     CreateMCHManifestwork := fun name userDefinedMCH =>
       if String.eqb userDefinedMCH "" || String.prefix "{" userDefinedMCH
       then @CreateMCHManifestwork referencePackage name userDefinedMCH
       else Err invalidOverride;
     EnsureManifestWork := @EnsureManifestWork referencePackage |}.

(** The reference hub seen through a cluster lister that shows every
    managed cluster with the label hoh=disabled. *)
Definition labelDisabled (mc : ManagedCluster) : ManagedCluster :=
  {| mc_ObjectMeta :=
       {| Name := Name (mc_ObjectMeta mc);
          Namespace := Namespace (mc_ObjectMeta mc);
          Labels := Some {[ "hoh" := "disabled" ]};
          Annotations := Annotations (mc_ObjectMeta mc);
          ResourceVersion := ResourceVersion (mc_ObjectMeta mc) |} |}.

Definition disabledViewController : clusterController :=
  {| workclient_Create := storeCreate;
     workclient_Update := storeUpdate;
     clusterLister_Get := fun name w =>
       match storeClusterGet name w with
       | Ok mc => Ok (labelDisabled mc)
       | Err e => Err e
       end;
     workLister_Get := storeWorkGet |}.

(** * Properties *)

Section Routing.

Context `{Package}.





(** For works the two objects of an update have the same name and
    namespace, so every notification of the work watch is routed as its
    (new) object alone is. *)
Lemma work_notifications_follow_the_object (old new : Object) mo mn :
  Accessor old = Ok mo -> Accessor new = Ok mn ->
  Name mo = Name mn -> Namespace mo = Namespace mn ->
  onWorkNotification (Added new) = onWorkEvent new /\
  onWorkNotification (Deleted new) = onWorkEvent new /\
  onWorkNotification (Updated old new) = onWorkEvent new.
Proof.
  intros Ho Hn Hname Hns.
  unfold onWorkNotification, onWorkEvent, filteringEventHandler,
    filteredEventHandler, enqueue.
  split; [reflexivity |]. split; [reflexivity |].
  assert (Hsame : workFilter old = workFilter new).
  { unfold workFilter, GetName, GetNamespace. rewrite Ho, Hn, Hname, Hns. reflexivity. }
  assert (Hkey : workQueueKey old = workQueueKey new).
  { unfold workQueueKey, GetNamespace. rewrite Ho, Hn, Hns. reflexivity. }
  rewrite Hsame. destruct (workFilter new); simpl; reflexivity.
Qed.

End Routing.

Section GateProperties.

Context {W : Type}.

Implicit Types (st : @SyncState W) (body : @M W unit).

(** ** The loops compute the gate *)

Lemma forValues_gate body values st :
  forValues body values st =
  match gateValues values with
  | GateOpen => (body;; returnNil) st
  | GateClosed => (Next tt, st)
  | GateFault => (Stop Panicked, st)
  end.
Proof.
  induction values as [| value rest IH]; simpl; [reflexivity |].
  destruct (String.eqb (fb_Name value) "state"); [| exact IH].
  destruct (fv_String (fb_Value value)) as [s |]; [| reflexivity].
  destruct (String.eqb s "AtLatestKnown"); [reflexivity | exact IH].
Qed.

Lemma forManifests_gate body manifests st :
  forManifests body manifests st =
  match gateManifests manifests with
  | GateOpen => (body;; returnNil) st
  | GateClosed => (Next tt, st)
  | GateFault => (Stop Panicked, st)
  end.
Proof.
  induction manifests as [| conditions rest IH]; simpl; [reflexivity |].
  unfold mbind, M_bind in *.
  destruct (String.eqb (rm_Kind (ResourceMeta conditions)) "Subscription").
  - rewrite forValues_gate.
    destruct (gateValues (Values (StatusFeedbacks conditions))).
    + unfold mbind, M_bind, returnNil.
      destruct (body st) as [[a | o] st']; reflexivity.
    + exact IH.
    + reflexivity.
  - exact IH.
Qed.

(** ** What the gate says about the status *)

Lemma gateValues_open values :
  gateValues values = GateOpen ->
  exists value, In value values /\ fb_Name value = "state" /\
                fv_String (fb_Value value) = Some "AtLatestKnown".
Proof.
  induction values as [| value rest IH]; simpl; [discriminate |].
  destruct (String.eqb_spec (fb_Name value) "state") as [Hn | Hn].
  - destruct (fv_String (fb_Value value)) as [s |] eqn:Hs; [| discriminate].
    destruct (String.eqb_spec s "AtLatestKnown") as [-> | Hne].
    + intros _. exists value. auto.
    + intros Hg. destruct (IH Hg) as (v & Hin & Hv). exists v. auto.
  - intros Hg. destruct (IH Hg) as (v & Hin & Hv). exists v. auto.
Qed.

Lemma gateValues_fault values :
  gateValues values = GateFault ->
  exists value, In value values /\ fb_Name value = "state" /\
                fv_String (fb_Value value) = None.
Proof.
  induction values as [| value rest IH]; simpl; [discriminate |].
  destruct (String.eqb_spec (fb_Name value) "state") as [Hn | Hn].
  - destruct (fv_String (fb_Value value)) as [s |] eqn:Hs.
    + destruct (String.eqb s "AtLatestKnown"); [discriminate |].
      intros Hg. destruct (IH Hg) as (v & Hin & Hv). exists v. auto.
    + intros _. exists value. auto.
  - intros Hg. destruct (IH Hg) as (v & Hin & Hv). exists v. auto.
Qed.

Lemma gate_open_reports status :
  gate status = GateOpen -> reportsAtLatestKnown status.
Proof.
  unfold gate, reportsAtLatestKnown, stateValueOf.
  induction (Manifests (ResourceStatus status)) as [| conditions rest IH];
    simpl; [discriminate |].
  destruct (String.eqb_spec (rm_Kind (ResourceMeta conditions)) "Subscription")
    as [Hk | Hk].
  - destruct (gateValues (Values (StatusFeedbacks conditions))) eqn:Hv.
    + intros _. destruct (gateValues_open _ Hv) as (v & Hin & Hn & Hs).
      exists v. split; [exists conditions |]; auto.
    + intros Hg. destruct (IH Hg) as (v & (cnd & Hc & Hr) & Hs).
      exists v. split; [exists cnd |]; auto.
    + discriminate.
  - intros Hg. destruct (IH Hg) as (v & (cnd & Hc & Hr) & Hs).
    exists v. split; [exists cnd |]; auto.
Qed.

Lemma gate_fault_nil status :
  gate status = GateFault ->
  exists value, stateValueOf status value /\ fv_String (fb_Value value) = None.
Proof.
  unfold gate, stateValueOf.
  induction (Manifests (ResourceStatus status)) as [| conditions rest IH];
    simpl; [discriminate |].
  destruct (String.eqb_spec (rm_Kind (ResourceMeta conditions)) "Subscription")
    as [Hk | Hk].
  - destruct (gateValues (Values (StatusFeedbacks conditions))) eqn:Hv.
    + discriminate.
    + intros Hg. destruct (IH Hg) as (v & (cnd & Hc & Hr) & Hs).
      exists v. split; [exists cnd |]; auto.
    + intros _. destruct (gateValues_fault _ Hv) as (v & Hin & Hn & Hs).
      exists v. split; [exists conditions |]; auto.
  - intros Hg. destruct (IH Hg) as (v & (cnd & Hc & Hr) & Hs).
    exists v. split; [exists cnd |]; auto.
Qed.

Lemma gateValues_closed values :
  gateValues values = GateClosed ->
  forall value, In value values -> fb_Name value = "state" ->
    exists s, fv_String (fb_Value value) = Some s /\ s <> "AtLatestKnown".
Proof.
  induction values as [| v rest IH]; simpl; [contradiction |].
  destruct (String.eqb_spec (fb_Name v) "state") as [Hn | Hn].
  - destruct (fv_String (fb_Value v)) as [s |] eqn:Hs; [| discriminate].
    destruct (String.eqb_spec s "AtLatestKnown") as [-> | Hne]; [discriminate |].
    intros Hg value [<- | Hin] Hname; eauto.
  - intros Hg value [<- | Hin] Hname; [contradiction | eauto].
Qed.

Lemma gate_closed_values status :
  gate status = GateClosed ->
  forall value, stateValueOf status value ->
    exists s, fv_String (fb_Value value) = Some s /\ s <> "AtLatestKnown".
Proof.
  unfold gate, stateValueOf.
  induction (Manifests (ResourceStatus status)) as [| conditions rest IH];
    simpl; [intros _ value (cnd & [] & _) |].
  destruct (String.eqb_spec (rm_Kind (ResourceMeta conditions)) "Subscription")
    as [Hk | Hk].
  - destruct (gateValues (Values (StatusFeedbacks conditions))) eqn:Hv;
      try discriminate.
    intros Hg value (cnd & [<- | Hc] & Hkind & Hin & Hname).
    + eapply gateValues_closed; eauto.
    + apply (IH Hg). exists cnd. auto.
  - intros Hg value (cnd & [<- | Hc] & Hkind & Hin & Hname).
    + contradiction.
    + apply (IH Hg). exists cnd. auto.
Qed.

Lemma gate_total status :
  stateStringsPresent status -> gate status <> GateFault.
Proof.
  intros Hp Hg. destruct (gate_fault_nil _ Hg) as (v & Hv & Hs).
  exact (Hp v Hv Hs).
Qed.

End GateProperties.

(** ** Case analysis of an invocation *)

Ltac unfold_sync :=
  unfold runSync, finish, sync, syncMCH, clusterGet, workGet, workCreate,
    workUpdate, ensure, returnErr, returnNil, panic, mbind, M_bind, mret,
    M_ret, record, setHub in *;
  cbn [hub cache calls app fst snd] in *.

Ltac sync_step :=
  match goal with
  | |- context [forManifests ?b ?l ?s] => rewrite (forManifests_gate b l s)
  | |- context [match ?x with _ => _ end] =>
      lazymatch x with
      | context [match _ with _ => _ end] => fail
      | _ => destruct x eqn:?
      end
  end;
  unfold_sync.

Ltac sync_cases := unfold_sync; repeat sync_step.

(** Follow one known result. *)
Ltac sync_with E := rewrite E; cbn [hub cache calls app fst snd].

(** Membership in an explicit list of calls. *)
Ltac in_calls :=
  simpl; repeat (first [left; reflexivity | right]).

Ltac split_In H :=
  simpl in H;
  repeat (destruct H as [H | H];
          [first [discriminate H | injection H as; subst] |]);
  try contradiction.

Ltac in_log := rewrite ?in_app_iff; simpl; tauto.

(** A branch in which the hub refused a write contradicts [Hs], which says
    that every write was accepted. *)
Ltac refused Hs :=
  exfalso;
  match goal with
  | Hc : workclient_Create _ ?ns ?obj _ = (Err ?e, _) |- _ =>
      first [ solve [apply (Hs (EvCreate Subscription ns obj (Err e))); in_log]
            | solve [apply (Hs (EvCreate ManagementHub ns obj (Err e))); in_log] ]
  | Hc : workclient_Update _ ?ns ?obj _ = (Err ?e, _) |- _ =>
      first [ solve [apply (Hs (EvUpdate Subscription ns obj (Err e))); in_log]
            | solve [apply (Hs (EvUpdate ManagementHub ns obj (Err e))); in_log] ]
  end.

Section SyncProperties.

Context `{Package} {W : Type}.

Implicit Types (c : @clusterController W) (w : W) (k : ResourceCache).
Implicit Types (st : @SyncState W) (body : @M W unit).

(** C9. When the lookup of the managed cluster fails, the invocation ends
    at once: with success when the error is not-found, with the error
    otherwise; the lookup is the only call made and the hub is unchanged. *)
Theorem sync_membership_lookup_failed c key w k err :
  clusterLister_Get c key w = Err err ->
  runSync c key w k =
    (Returned (if IsNotFound err then None else Some err),
     {| hub := w; cache := k; calls := [EvClusterGet key (Err err)] |}).
Proof.
  intros Hget. unfold_sync. rewrite Hget.
  destruct (IsNotFound err); reflexivity.
Qed.

(** C1. Staging invariant: a call of the second stage (lookup, create,
    update or comparison of the MCH work) occurs in an invocation only when
    the subscription work read in that invocation has, under a manifest of
    kind "Subscription", a feedback value named "state" whose string is
    "AtLatestKnown".  Without such a value no call of the second stage is
    made. *)
Theorem staging_invariant c key w k ev :
  In ev (calls (snd (runSync c key w k))) ->
  stageOf ev = Some ManagementHub ->
  exists subscription,
    workLister_Get c key ((key +:+ "-") +:+ HOH_HUB_CLUSTER_SUBSCRIPTION) w
      = Ok subscription /\
    In (EvWorkGet Subscription key
          ((key +:+ "-") +:+ HOH_HUB_CLUSTER_SUBSCRIPTION) (Ok subscription))
       (calls (snd (runSync c key w k))) /\
    reportsAtLatestKnown (Status subscription).
Proof.
  sync_cases; intros Hin Hstage;
    repeat (destruct Hin as [<- | Hin]; [try discriminate Hstage |]);
    try contradiction;
    (eexists; split; [reflexivity |]; split;
     [simpl; tauto | apply gate_open_reports; assumption]).
Qed.


(** C4. When the comparison reports that the subscription work read
    differs from the desired one, an update is issued with the desired
    content and the resource version of the work read; when the update is
    accepted the invocation goes on to the gate, which runs on the status
    of the work as read before the update, in the hub the update left:
    neither the object the update returns nor a second read is used. *)
Theorem subscription_update_then_gate c key w k managedCluster subscription r w' :
  let name := (key +:+ "-") +:+ HOH_HUB_CLUSTER_SUBSCRIPTION in
  let desired := CreateSubManifestwork key in
  let update :=
    setResourceVersion desired (ResourceVersion (mw_ObjectMeta subscription)) in
  clusterLister_Get c key w = Ok managedCluster ->
  workLister_Get c key name w = Ok subscription ->
  EnsureManifestWork subscription desired = Ok true ->
  workclient_Update c key update w = (Ok r, w') ->
  Spec update = Spec desired /\
  ResourceVersion (mw_ObjectMeta update)
    = ResourceVersion (mw_ObjectMeta subscription) /\
  sync c key {| hub := w; cache := k; calls := [] |} =
    (forManifests (syncMCH c key managedCluster)
       (Manifests (ResourceStatus (Status subscription)));;
     returnNil)
      {| hub := w'; cache := k;
         calls := [EvClusterGet key (Ok managedCluster);
                   EvWorkGet Subscription key name (Ok subscription);
                   EvEnsure Subscription subscription desired (Ok true);
                   EvUpdate Subscription key update (Ok r)] |}.
Proof.
  intros name desired update Hmc Hsub Hens Hupd.
  split; [reflexivity |]. split; [reflexivity |].
  subst name desired update.
  unfold sync, clusterGet, workGet, ensure, workUpdate, mbind, M_bind, mret,
    M_ret, record, setHub.
  cbn [hub cache calls app].
  sync_with Hmc. sync_with Hsub. sync_with Hens. sync_with Hupd.
  reflexivity.
Qed.

(** C2. What the code does when the lookup of the MCH work reports
    not-found and the create is accepted: the work is created with the
    desired content, and the invocation then returns the not-found error of
    the lookup without comparing, because the check after the creation
    branch still sees the error of the lookup. *)
Lemma mch_created_then_lookup_error_returned
    c key w k managedCluster subscription desiredMCH err r w' :
  clusterLister_Get c key w = Ok managedCluster ->
  workLister_Get c key ((key +:+ "-") +:+ HOH_HUB_CLUSTER_SUBSCRIPTION) w
    = Ok subscription ->
  EnsureManifestWork subscription (CreateSubManifestwork key) = Ok false ->
  gate (Status subscription) = GateOpen ->
  CreateMCHManifestwork key (userDefinedMCHOf managedCluster) = Ok desiredMCH ->
  workLister_Get c key ((key +:+ "-") +:+ HOH_HUB_CLUSTER_MCH) w = Err err ->
  IsNotFound err = true ->
  workclient_Create c key desiredMCH w = (Ok r, w') ->
  runSync c key w k =
    (Returned (Some err),
     {| hub := w'; cache := k;
        calls := [EvClusterGet key (Ok managedCluster);
                  EvWorkGet Subscription key
                    ((key +:+ "-") +:+ HOH_HUB_CLUSTER_SUBSCRIPTION)
                    (Ok subscription);
                  EvEnsure Subscription subscription
                    (CreateSubManifestwork key) (Ok false);
                  EvWorkGet ManagementHub key
                    ((key +:+ "-") +:+ HOH_HUB_CLUSTER_MCH) (Err err);
                  EvCreate ManagementHub key desiredMCH (Ok r)] |}).
Proof.
  intros Hmc Hsub Hens Hgate Hbuild Hget Hnf Hcreate.
  unfold gate in Hgate.
  unfold_sync. sync_with Hmc. sync_with Hsub. sync_with Hens.
  rewrite forManifests_gate, Hgate. unfold_sync.
  sync_with Hbuild. sync_with Hget. sync_with Hnf. sync_with Hcreate.
  reflexivity.
Qed.

(** C7. Every update call of an invocation, of either stage, carries the
    resource version of the work that the lookup of that stage returned
    earlier in the same invocation; that lookup is the only one the
    invocation makes for the stage. *)
Theorem update_carries_read_version c key w k s ns obj r :
  In (EvUpdate s ns obj r) (calls (snd (runSync c key w k))) ->
  exists name existing before after,
    calls (snd (runSync c key w k))
      = (before ++ EvUpdate s ns obj r :: after)%list /\
    In (EvWorkGet s ns name (Ok existing)) before /\
    (forall ns' name' r',
        In (EvWorkGet s ns' name' r') (calls (snd (runSync c key w k))) ->
        r' = Ok existing) /\
    ResourceVersion (mw_ObjectMeta obj)
      = ResourceVersion (mw_ObjectMeta existing).
Proof.
  sync_cases; intros Hin; split_In Hin;
    first
      [ refine (ex_intro _ _ (ex_intro _ _ (ex_intro _ [_; _; _] (ex_intro _ _ _))));
        split; [reflexivity |]; split; [in_calls |]; split;
        [intros ns' name' r' Hget; split_In Hget; reflexivity | reflexivity]
      | refine (ex_intro _ _ (ex_intro _ _ (ex_intro _ [_; _; _; _; _] (ex_intro _ _ _))));
        split; [reflexivity |]; split; [in_calls |]; split;
        [intros ns' name' r' Hget; split_In Hget; reflexivity | reflexivity]
      | refine (ex_intro _ _ (ex_intro _ _ (ex_intro _ [_; _; _; _; _; _] (ex_intro _ _ _))));
        split; [reflexivity |]; split; [in_calls |]; split;
        [intros ns' name' r' Hget; split_In Hget; reflexivity | reflexivity] ].
Qed.

(** C10. The comparison that sync invokes takes the existing and the
    desired work and nothing else.  The cache the controller holds is
    neither written nor read by an invocation: it is left as it was, and
    the outcome, the calls (comparisons included) and the hub are the same
    whatever the cache contains. *)
Theorem sync_ignores_cache c key w k k' :
  cache (snd (runSync c key w k)) = k /\
  fst (runSync c key w k') = fst (runSync c key w k) /\
  calls (snd (runSync c key w k')) = calls (snd (runSync c key w k)) /\
  hub (snd (runSync c key w k')) = hub (snd (runSync c key w k)).
Proof.
  sync_cases; repeat split; reflexivity.
Qed.

(** ** Idempotence *)

Lemma append_cancel (a b b' : string) : a +:+ b = a +:+ b' -> b = b'.
Proof.
  induction a as [| ch a IH]; simpl; [auto |].
  intros [= Heq]. auto.
Qed.

Lemma work_names_differ (key : string) :
  Conventions ->
  (key, (key +:+ "-") +:+ HOH_HUB_CLUSTER_SUBSCRIPTION)
    <> (key, (key +:+ "-") +:+ HOH_HUB_CLUSTER_MCH).
Proof.
  intros Hconv [= Heq]. apply append_cancel in Heq.
  exact (suffixes_differ Hconv Heq).
Qed.

Lemma sameContent_setResourceVersion (a b : ManifestWork) rv :
  sameContent a (setResourceVersion b rv) -> sameContent a b.
Proof. unfold sameContent. simpl. tauto. Qed.

(** In a settled hub an invocation writes nothing. *)
Lemma settled_quiet c key w k :
  settled c key w -> writes (calls (snd (runSync c key w k))) = [].
Proof.
  unfold settled, mchSettled, gate.
  sync_cases; intros Hs; try reflexivity; try contradiction; try congruence.
Qed.

Section Laws.

Variable c : @clusterController W.
Hypothesis Hconv : Conventions.
Hypothesis Happ : AppliesWrites c.

(** What each accepted write of an invocation leaves behind. *)
Lemma subscription_created key w r w' :
  workclient_Create c key (CreateSubManifestwork key) w = (Ok r, w') ->
  clusterLister_Get c key w' = clusterLister_Get c key w /\
  workLister_Get c key ((key +:+ "-") +:+ HOH_HUB_CLUSTER_MCH) w' = workLister_Get c key ((key +:+ "-") +:+ HOH_HUB_CLUSTER_MCH) w /\
  exists new,
    workLister_Get c key ((key +:+ "-") +:+ HOH_HUB_CLUSTER_SUBSCRIPTION) w' = Ok new /\
    EnsureManifestWork new (CreateSubManifestwork key) = Ok false /\
    gateManifests (Manifests (ResourceStatus (Status new))) = GateClosed.
Proof.
  intros Hc. split; [exact (create_keeps_clusters _ Happ _ _ _ _ _ _ Hc) |].
  split.
  - apply (create_keeps_others _ Happ _ _ _ _ _ _ _ Hc).
    rewrite (subscription_named Hconv).
    intros Heq. exact (work_names_differ key Hconv (eq_sym Heq)).
  - destruct (create_stores _ Happ _ _ _ _ _ Hc) as (new & Hget & Hsame & Hst).
    rewrite (subscription_named Hconv) in Hget.
    exists new. split; [exact Hget |]. split.
    + exact (ensure_same_content Hconv _ _ Hsame).
    + rewrite Hst. reflexivity.
Qed.

Lemma subscription_updated key w r w' existing :
  workclient_Update c key
    (setResourceVersion (CreateSubManifestwork key)
       (ResourceVersion (mw_ObjectMeta existing))) w = (Ok r, w') ->
  workLister_Get c key ((key +:+ "-") +:+ HOH_HUB_CLUSTER_SUBSCRIPTION) w = Ok existing ->
  clusterLister_Get c key w' = clusterLister_Get c key w /\
  workLister_Get c key ((key +:+ "-") +:+ HOH_HUB_CLUSTER_MCH) w' = workLister_Get c key ((key +:+ "-") +:+ HOH_HUB_CLUSTER_MCH) w /\
  exists new,
    workLister_Get c key ((key +:+ "-") +:+ HOH_HUB_CLUSTER_SUBSCRIPTION) w' = Ok new /\
    EnsureManifestWork new (CreateSubManifestwork key) = Ok false /\
    Status new = Status existing.
Proof.
  intros Hu Hg. split; [exact (update_keeps_clusters _ Happ _ _ _ _ _ _ Hu) |].
  split.
  - apply (update_keeps_others _ Happ _ _ _ _ _ _ _ Hu). simpl.
    rewrite (subscription_named Hconv).
    intros Heq. exact (work_names_differ key Hconv (eq_sym Heq)).
  - destruct (update_stores _ Happ _ _ _ _ _ existing Hu) as (new & Hget & Hsame & Hst).
    + simpl. rewrite (subscription_named Hconv). exact Hg.
    + simpl in Hget. rewrite (subscription_named Hconv) in Hget.
      exists new. split; [exact Hget |]. split; [| exact Hst].
      apply (ensure_same_content Hconv).
      exact (sameContent_setResourceVersion _ _ _ Hsame).
Qed.

Lemma mch_created key u desiredMCH w r w' :
  CreateMCHManifestwork key u = Ok desiredMCH ->
  workclient_Create c key desiredMCH w = (Ok r, w') ->
  clusterLister_Get c key w' = clusterLister_Get c key w /\
  workLister_Get c key ((key +:+ "-") +:+ HOH_HUB_CLUSTER_SUBSCRIPTION) w' = workLister_Get c key ((key +:+ "-") +:+ HOH_HUB_CLUSTER_SUBSCRIPTION) w /\
  exists new,
    workLister_Get c key ((key +:+ "-") +:+ HOH_HUB_CLUSTER_MCH) w' = Ok new /\
    EnsureManifestWork new desiredMCH = Ok false.
Proof.
  intros Hb Hc. pose proof (mch_named Hconv _ _ _ Hb) as Hname.
  split; [exact (create_keeps_clusters _ Happ _ _ _ _ _ _ Hc) |].
  split.
  - apply (create_keeps_others _ Happ _ _ _ _ _ _ _ Hc).
    rewrite Hname. exact (work_names_differ key Hconv).
  - destruct (create_stores _ Happ _ _ _ _ _ Hc) as (new & Hget & Hsame & _).
    rewrite Hname in Hget.
    exists new. split; [exact Hget |].
    exact (ensure_same_content Hconv _ _ Hsame).
Qed.

Lemma mch_updated key u desiredMCH w r w' existing :
  CreateMCHManifestwork key u = Ok desiredMCH ->
  workclient_Update c key
    (setResourceVersion desiredMCH (ResourceVersion (mw_ObjectMeta existing)))
    w = (Ok r, w') ->
  workLister_Get c key ((key +:+ "-") +:+ HOH_HUB_CLUSTER_MCH) w = Ok existing ->
  clusterLister_Get c key w' = clusterLister_Get c key w /\
  workLister_Get c key ((key +:+ "-") +:+ HOH_HUB_CLUSTER_SUBSCRIPTION) w' = workLister_Get c key ((key +:+ "-") +:+ HOH_HUB_CLUSTER_SUBSCRIPTION) w /\
  exists new,
    workLister_Get c key ((key +:+ "-") +:+ HOH_HUB_CLUSTER_MCH) w' = Ok new /\
    EnsureManifestWork new desiredMCH = Ok false.
Proof.
  intros Hb Hu Hg. pose proof (mch_named Hconv _ _ _ Hb) as Hname.
  split; [exact (update_keeps_clusters _ Happ _ _ _ _ _ _ Hu) |].
  split.
  - apply (update_keeps_others _ Happ _ _ _ _ _ _ _ Hu). simpl.
    rewrite Hname. exact (work_names_differ key Hconv).
  - destruct (update_stores _ Happ _ _ _ _ _ existing Hu) as (new & Hget & Hsame & _).
    + simpl. rewrite Hname. exact Hg.
    + simpl in Hget. rewrite Hname in Hget.
      exists new. split; [exact Hget |].
      apply (ensure_same_content Hconv).
      exact (sameContent_setResourceVersion _ _ _ Hsame).
Qed.

(** Replace every accepted write by what it leaves behind. *)
Ltac accepted :=
  repeat match goal with
  | Hc : workclient_Create c ?key (CreateSubManifestwork ?key) _ = (Ok _, _) |- _ =>
      destruct (subscription_created _ _ _ _ Hc) as (? & ? & ? & ? & ? & ?);
      clear Hc
  | Hu : workclient_Update c ?key
           (setResourceVersion (CreateSubManifestwork ?key) _) _ = (Ok _, _),
    Hg : workLister_Get c ?key _ _ = Ok _ |- _ =>
      destruct (subscription_updated _ _ _ _ _ Hu Hg) as (? & ? & ? & ? & ? & ?);
      clear Hu
  | Hb : CreateMCHManifestwork ?key _ = Ok ?d,
    Hc : workclient_Create c ?key ?d _ = (Ok _, _) |- _ =>
      destruct (mch_created _ _ _ _ _ _ Hb Hc) as (? & ? & ? & ? & ?);
      clear Hc
  | Hb : CreateMCHManifestwork ?key _ = Ok ?d,
    Hu : workclient_Update c ?key (setResourceVersion ?d _) _ = (Ok _, _),
    Hg : workLister_Get c ?key _ _ = Ok _ |- _ =>
      destruct (mch_updated _ _ _ _ _ _ _ Hb Hu Hg) as (? & ? & ? & ? & ?);
      clear Hu
  end.

(** After an invocation whose writes were all accepted the hub is settled. *)
Lemma first_run_settles key w k :
  (forall ev, In ev (calls (snd (runSync c key w k))) -> succeeded ev) ->
  settled c key (hub (snd (runSync c key w k))).
Proof.
  unfold settled, mchSettled, gate.
  sync_cases; intros Hs; try solve [refused Hs]; clear Hs.
  all: subst; accepted.
  all: solve [ exact I | congruence ].
Qed.

End Laws.

(** C8. Idempotence: when the hub applies the writes it accepts and shows
    them to the listers, the package follows its conventions, and every
    create and update call of an invocation was accepted, the next
    invocation for the same key, with nothing changed in between, makes no
    create or update call. *)
Theorem sync_idempotent_after_accepted_writes c key w k :
  Conventions ->
  AppliesWrites c ->
  (forall ev, In ev (calls (snd (runSync c key w k))) -> succeeded ev) ->
  writes (calls (snd (runSync c key (hub (snd (runSync c key w k)))
                            (cache (snd (runSync c key w k)))))) = [].
Proof.
  intros Hconv Happ Hs. apply settled_quiet.
  exact (first_run_settles c Hconv Happ key w k Hs).
Qed.

End SyncProperties.

(** ** The reference hub and package meet the assumptions *)

Lemma store_applies_writes : AppliesWrites storeController.
Proof.
  constructor; simpl; unfold storeCreate, storeUpdate, storeClusterGet, storeWorkGet.
  - intros ns obj w r w' name.
    destruct (works w !! (ns, Name (mw_ObjectMeta obj))); [discriminate |].
    intros [= <- <-]. reflexivity.
  - intros ns obj w r w' ns' name'.
    destruct (works w !! (ns, Name (mw_ObjectMeta obj))); [discriminate |].
    intros [= <- <-] Hne. simpl. rewrite lookup_insert_ne; [reflexivity | congruence].
  - intros ns obj w r w'.
    destruct (works w !! (ns, Name (mw_ObjectMeta obj))); [discriminate |].
    intros [= <- <-]. simpl. rewrite lookup_insert_eq.
    eexists. split; [reflexivity |]. split; [| reflexivity].
    unfold sameContent. simpl. tauto.
  - intros ns obj w r w' name.
    destruct (works w !! (ns, Name (mw_ObjectMeta obj))) as [existing |];
      [| discriminate].
    destruct (String.eqb _ _); [| discriminate].
    intros [= <- <-]. reflexivity.
  - intros ns obj w r w' ns' name'.
    destruct (works w !! (ns, Name (mw_ObjectMeta obj))) as [existing |];
      [| discriminate].
    destruct (String.eqb _ _); [| discriminate].
    intros [= <- <-] Hne. simpl. rewrite lookup_insert_ne; [reflexivity | congruence].
  - intros ns obj w r w' existing.
    destruct (works w !! (ns, Name (mw_ObjectMeta obj))) as [found |];
      [| discriminate].
    destruct (String.eqb _ _); [| discriminate].
    intros [= <- <-] [= <-]. simpl. rewrite lookup_insert_eq.
    eexists. split; [reflexivity |]. split; [| reflexivity].
    unfold sameContent. simpl. tauto.
Qed.

Lemma reference_conventions : @Conventions referencePackage.
Proof.
  constructor; simpl.
  - discriminate.
  - reflexivity.
  - intros name userDefinedMCH desired [= <-]. reflexivity.
  - intros existing desired (_ & _ & _ & _ & Hspec).
    rewrite Hspec. rewrite bool_decide_eq_true_2; reflexivity.
Qed.

(** ** Concrete runs *)




(** Scenario D: the managed cluster is gone; success, and no write. *)
Lemma sync_membership_lookup_failed_witness :
  referenceRun hubEmpty =
    (Returned None,
     {| hub := hubEmpty; cache := NewResourceCache;
        calls := [EvClusterGet "cluster1"
                    (Err (statusError StatusReasonNotFound
                            "managedcluster not found"))] |}).
Proof.
  exact (@sync_membership_lookup_failed referencePackage Store storeController
           "cluster1" hubEmpty NewResourceCache
           (statusError StatusReasonNotFound "managedcluster not found")
           eq_refl).
Defined.

(** On a hub whose subscription reports AtLatestKnown the second stage
    is looked up, and the subscription read carries the signal. *)
Lemma staging_invariant_witness :
  exists subscription,
    storeWorkGet "cluster1" subscriptionName hubSubscribed = Ok subscription /\
    In (EvWorkGet Subscription "cluster1" subscriptionName (Ok subscription))
       (calls (snd (referenceRun hubSubscribed))) /\
    reportsAtLatestKnown (Status subscription).
Proof.
  apply (@staging_invariant referencePackage Store storeController "cluster1"
           hubSubscribed NewResourceCache
           (EvWorkGet ManagementHub "cluster1" mchName (Err notFoundWork))).
  - vm_compute. do 3 right. left. reflexivity.
  - reflexivity.
Defined.


(** An outdated subscription is updated with the resource version read,
    and the loop then runs on the status read before the update. *)
Lemma subscription_update_then_gate_witness :
  exists w',
    storeUpdate "cluster1" subscriptionUpdate1 hubOutdated
      = (Ok subscriptionUpdated1, w') /\
    @sync referencePackage Store storeController "cluster1"
      {| hub := hubOutdated; cache := NewResourceCache; calls := [] |} =
    (forManifests (@syncMCH referencePackage Store storeController "cluster1" cluster1)
       (Manifests (ResourceStatus (subscriptionStatus (Some "UpgradePending"))));;
     returnNil)
      {| hub := w'; cache := NewResourceCache;
         calls := [EvClusterGet "cluster1" (Ok cluster1);
                   EvWorkGet Subscription "cluster1" subscriptionName
                     (Ok (stored outdatedSubscription1
                            (subscriptionStatus (Some "UpgradePending")) 2));
                   EvEnsure Subscription
                     (stored outdatedSubscription1
                        (subscriptionStatus (Some "UpgradePending")) 2)
                     desiredSubscription1 (Ok true);
                   EvUpdate Subscription "cluster1" subscriptionUpdate1
                     (Ok subscriptionUpdated1)] |}.
Proof.
  eexists. split; [reflexivity |].
  apply (@subscription_update_then_gate referencePackage Store storeController
           "cluster1" hubOutdated NewResourceCache cluster1
           (stored outdatedSubscription1
              (subscriptionStatus (Some "UpgradePending")) 2));
    reflexivity.
Defined.

(** Scenario B on the reference hub: the MCH work is created, the
    invocation returns the not-found error, and nothing is compared for
    the second stage. *)
Lemma mch_created_then_lookup_error_returned_witness :
  fst (referenceRun hubSubscribed) = Returned (Some notFoundWork) /\
  (exists r, In (EvCreate ManagementHub "cluster1" desiredMCH1 (Ok r))
               (calls (snd (referenceRun hubSubscribed)))) /\
  (forall existing desired r,
      ~ In (EvEnsure ManagementHub existing desired r)
          (calls (snd (referenceRun hubSubscribed)))).
Proof.
  unfold referenceRun.
  erewrite (@mch_created_then_lookup_error_returned referencePackage Store
              storeController "cluster1" hubSubscribed NewResourceCache cluster1
              (stored desiredSubscription1
                 (subscriptionStatus (Some "AtLatestKnown")) 2)
              desiredMCH1 notFoundWork);
    try reflexivity.
  split; [reflexivity |]. split.
  - eexists. simpl. do 4 right. left. reflexivity.
  - intros existing desired r Hin. simpl in Hin.
    repeat (destruct Hin as [Hin | Hin]; [discriminate Hin |]). exact Hin.
Defined.

(** The update of the outdated subscription carries revision 2, the one
    the lookup returned. *)
Lemma update_carries_read_version_witness :
  exists name existing before after,
    calls (snd (referenceRun hubOutdated))
      = (before ++ EvUpdate Subscription "cluster1" subscriptionUpdate1
                     (Ok subscriptionUpdated1) :: after)%list /\
    In (EvWorkGet Subscription "cluster1" name (Ok existing)) before /\
    (forall ns' name' r',
        In (EvWorkGet Subscription ns' name' r')
           (calls (snd (referenceRun hubOutdated))) ->
        r' = Ok existing) /\
    ResourceVersion (mw_ObjectMeta subscriptionUpdate1)
      = ResourceVersion (mw_ObjectMeta existing).
Proof.
  apply (@update_carries_read_version referencePackage Store storeController
           "cluster1" hubOutdated NewResourceCache).
  vm_compute. do 3 right. left. reflexivity.
Defined.

(** After the invocation that creates the MCH work, the next one writes
    nothing. *)
Lemma sync_idempotent_after_accepted_writes_witness :
  writes (calls (snd (referenceRun hubSubscribed)))
    = [EvCreate ManagementHub "cluster1" desiredMCH1
         (Ok (stored desiredMCH1 emptyStatus 3))] /\
  writes (calls (snd (referenceRun (hub (snd (referenceRun hubSubscribed))))))
    = [].
Proof.
  split; [reflexivity |].
  apply (@sync_idempotent_after_accepted_writes referencePackage Store
           storeController "cluster1" hubSubscribed NewResourceCache
           reference_conventions store_applies_writes).
  intros ev Hin. vm_compute in Hin.
  repeat (destruct Hin as [<- | Hin]; [exact I |]). contradiction.
Defined.

(** C8 as stated fails.  While the API server refuses writes, an
    invocation for a cluster without subscription work issues a create
    that is refused; nothing has changed on the hub, and the next
    invocation issues the create again. *)
Lemma refused_create_is_repeated :
  let first :=
    @runSync referencePackage Store outageController "cluster1" hubJoined
      NewResourceCache in
  let second :=
    @runSync referencePackage Store outageController "cluster1"
      (hub (snd first)) (cache (snd first)) in
  hub (snd first) = hubJoined /\
  writes (calls (snd first))
    = [EvCreate Subscription "cluster1" desiredSubscription1 (Err serverDown)] /\
  writes (calls (snd second)) <> [].
Proof.
  cbv zeta. split; [reflexivity |]. split; [reflexivity |].
  vm_compute. discriminate.
Qed.

(** C10 as stated fails.  Two invocations in a row on an unchanged hub
    both make the comparison of the same pair of works, and the cache is
    as empty after each as the constructor left it. *)
Lemma comparison_repeated_cache_unused :
  let first :=
    @runSync referencePackage Store storeController "cluster1" hubInstalling
      (newCache (@NewHubClusterController referencePackage Store storeController)) in
  let second :=
    @runSync referencePackage Store storeController "cluster1"
      (hub (snd first)) (cache (snd first)) in
  let compared :=
    EvEnsure Subscription
      (stored desiredSubscription1 (subscriptionStatus (Some "UpgradePending")) 2)
      desiredSubscription1 (Ok false) in
  hub (snd first) = hubInstalling /\
  In compared (calls (snd first)) /\
  In compared (calls (snd second)) /\
  cache (snd first) = NewResourceCache /\
  cache (snd second) = NewResourceCache.
Proof.
  cbv zeta. split; [reflexivity |].
  split; [vm_compute; do 2 right; left; reflexivity |].
  split; [vm_compute; do 2 right; left; reflexivity |].
  split; reflexivity.
Qed.

(** * Further properties of routing and sync *)

(** Membership in an explicit list of calls, trying every position. *)
Ltac pick_in := simpl; ((left; reflexivity) + (right; pick_in)).

(** The calls are [before ++ [ev]] for the call [ev] at hand. *)
Ltac last_call :=
  first [ exists []; reflexivity
        | refine (ex_intro _ [_] _); reflexivity
        | refine (ex_intro _ [_; _] _); reflexivity
        | refine (ex_intro _ [_; _; _] _); reflexivity
        | refine (ex_intro _ [_; _; _; _] _); reflexivity
        | refine (ex_intro _ [_; _; _; _; _] _); reflexivity
        | refine (ex_intro _ [_; _; _; _; _; _] _); reflexivity ].

(** The calls are [before ++ ev :: after] with a prefix of the shape [p],
    and [rest] proves what is said of the prefix. *)
Ltac at_prefix p rest :=
  refine (ex_intro _ _ (ex_intro _ _ (ex_intro _ p (ex_intro _ _ _))));
  split; [reflexivity |]; rest.

Section FurtherProperties.

Context `{Package} {W : Type}.

Implicit Types (c : @clusterController W) (w : W) (k : ResourceCache).
Implicit Types (st : @SyncState W) (body : @M W unit).

(** ** Routing *)

(** What the cluster filter and key function do with any object. *)
Lemma cluster_object_cases (obj : Object) :
  (clusterFilter obj = true /\
   exists m, Accessor obj = Ok m /\
             mapIndex (Labels m) "hoh" <> "disabled" /\
             Name m <> "local-cluster" /\
             enqueue clusterQueueKey obj = Enqueued (Name m)) \/
  (clusterFilter obj = false /\
   ~ exists m, Accessor obj = Ok m /\
               mapIndex (Labels m) "hoh" <> "disabled" /\
               Name m <> "local-cluster").
Proof.
  unfold clusterFilter, enqueue, clusterQueueKey, GetLabels, GetName.
  destruct (Accessor obj) as [m | e].
  - destruct (String.eqb_spec (mapIndex (Labels m) "hoh") "disabled") as [Hl | Hl];
      destruct (String.eqb_spec (Name m) "local-cluster") as [Hn | Hn]; simpl;
      try (right; split; [reflexivity |];
           intros (m' & [= <-] & Hl' & Hn'); contradiction).
    left. split; [reflexivity |]. exists m. auto.
  - right. split; [reflexivity |]. intros (m & Hm & _). discriminate.
Qed.

(** X1. Routing of the cluster watch for any notification.  No
    notification faults: the key function, which ignores the error of the
    accessor, is only run on an object that passed the filter.  A key is
    added exactly when the object of an add or a delete, the new object of
    an update, or the old object of an update whose new object is
    rejected, has readable metadata, a label "hoh" other than "disabled"
    and a name other than "local-cluster"; the key is the name of that
    object. *)
Theorem cluster_event_routing (n : Notification) :
  onClusterNotification n <> KeyFault /\
  forall key,
    onClusterNotification n = Enqueued key <->
    exists obj m,
      decidingObject clusterFilter n obj /\
      Accessor obj = Ok m /\
      mapIndex (Labels m) "hoh" <> "disabled" /\
      Name m <> "local-cluster" /\
      key = Name m.
Proof.
  unfold onClusterNotification, filteringEventHandler.
  destruct n as [obj | old new | obj]; simpl.
  - destruct (cluster_object_cases obj) as [(Hf & m & Hm & Hl & Hn & He) | (Hf & Hno)];
      rewrite Hf; [rewrite He |]; (split; [discriminate |]); intros key; split.
    + intros [= <-]. exists obj, m. auto.
    + intros (o & m' & -> & Hm' & _ & _ & ->). congruence.
    + discriminate.
    + intros (o & m' & -> & Hm' & Hl' & Hn' & _). destruct Hno. eauto.
  - destruct (cluster_object_cases new) as [(Hf & m & Hm & Hl & Hn & He) | (Hf & Hno)];
      rewrite Hf.
    + assert (Hres : (if true && clusterFilter old
                      then enqueue clusterQueueKey new
                      else if true && negb (clusterFilter old)
                           then enqueue clusterQueueKey new
                           else if negb true && clusterFilter old
                                then enqueue clusterQueueKey old else Dropped)
                     = Enqueued (Name m)).
      { destruct (clusterFilter old); simpl; exact He. }
      rewrite Hres. split; [discriminate |]. intros key; split.
      * intros [= <-]. exists new, m. auto.
      * intros (o & m' & [-> | [_ Hfalse]] & Hm' & _ & _ & ->); congruence.
    + simpl.
      destruct (cluster_object_cases old)
        as [(Hfo & mo & Hmo & Hlo & Hno' & Heo) | (Hfo & Hnoo)];
        rewrite Hfo; [rewrite Heo |]; (split; [discriminate |]); intros key; split.
      * intros [= <-]. exists old, mo. auto 6.
      * intros (o & m' & [-> | [-> _]] & Hm' & Hl' & Hn' & ->).
        -- destruct Hno. eauto.
        -- congruence.
      * discriminate.
      * intros (o & m' & [-> | [-> _]] & Hm' & Hl' & Hn' & _).
        -- destruct Hno. eauto.
        -- destruct Hnoo. eauto.
  - destruct (cluster_object_cases obj) as [(Hf & m & Hm & Hl & Hn & He) | (Hf & Hno)];
      rewrite Hf; [rewrite He |]; (split; [discriminate |]); intros key; split.
    + intros [= <-]. exists obj, m. auto.
    + intros (o & m' & -> & Hm' & _ & _ & ->). congruence.
    + discriminate.
    + intros (o & m' & -> & Hm' & Hl' & Hn' & _). destruct Hno. eauto.
Qed.

(** Every work lookup of an invocation asks, in the namespace of the key,
    for the name made of the key and the suffix of the stage. *)
Lemma lookups_address_the_key c key w k s ns name r :
  In (EvWorkGet s ns name r) (calls (snd (runSync c key w k))) ->
  ns = key /\ name = workName key s.
Proof.
  sync_cases; intros Hin; split_In Hin; split; reflexivity.
Qed.

(** X2. From a work event back to the work: when a notification of the
    work watch adds a key, the object is the work of one of the two stages
    of that key, and every lookup an invocation for the key makes for that
    stage asks for the namespace and the name of that very object. *)
Theorem work_event_leads_to_its_lookup obj key :
  onWorkEvent obj = Enqueued key ->
  exists m s,
    Accessor obj = Ok m /\
    key = Namespace m /\
    Name m = workName key s /\
    forall c w k ns name r,
      In (EvWorkGet s ns name r) (calls (snd (runSync c key w k))) ->
      ns = Namespace m /\ name = Name m.
Proof.
  unfold onWorkEvent, filteredEventHandler, workQueueKey, workFilter,
    GetName, GetNamespace.
  destruct (Accessor obj) as [m | e]; [| discriminate].
  destruct (String.eqb_spec (Name m)
              ((Namespace m +:+ "-") +:+ HOH_HUB_CLUSTER_SUBSCRIPTION)) as [Hs | Hs].
  - simpl. intros [= <-]. exists m, Subscription.
    split; [reflexivity |]. split; [reflexivity |]. split; [exact Hs |].
    intros c w k ns name r Hin.
    destruct (lookups_address_the_key _ _ _ _ _ _ _ _ Hin) as [-> ->]. auto.
  - destruct (String.eqb_spec (Name m)
                ((Namespace m +:+ "-") +:+ HOH_HUB_CLUSTER_MCH)) as [Hm | Hm];
      simpl; [| discriminate].
    intros [= <-]. exists m, ManagementHub.
    split; [reflexivity |]. split; [reflexivity |]. split; [exact Hm |].
    intros c w k ns name r Hin.
    destruct (lookups_address_the_key _ _ _ _ _ _ _ _ Hin) as [-> ->]. auto.
Qed.

(** ** The first stage *)

(** X3. First provisioning: when the managed cluster is found and the
    lookup of its subscription work reports not-found, the invocation
    makes one create, of the desired subscription work in the namespace of
    the key, and ends with the result of that create: success when it is
    accepted, its error otherwise.  Nothing is compared and the second
    stage is not touched. *)
Theorem subscription_absent_create_only c key w k managedCluster err r w' :
  clusterLister_Get c key w = Ok managedCluster ->
  workLister_Get c key ((key +:+ "-") +:+ HOH_HUB_CLUSTER_SUBSCRIPTION) w
    = Err err ->
  IsNotFound err = true ->
  workclient_Create c key (CreateSubManifestwork key) w = (r, w') ->
  runSync c key w k =
    (Returned (match r with Ok _ => None | Err e => Some e end),
     {| hub := w'; cache := k;
        calls := [EvClusterGet key (Ok managedCluster);
                  EvWorkGet Subscription key
                    ((key +:+ "-") +:+ HOH_HUB_CLUSTER_SUBSCRIPTION) (Err err);
                  EvCreate Subscription key (CreateSubManifestwork key) r] |}).
Proof.
  intros Hmc Hsub Hnf Hcreate.
  unfold_sync. sync_with Hmc. sync_with Hsub. sync_with Hnf. sync_with Hcreate.
  destruct r; reflexivity.
Qed.

(** X4. The second stage is touched only with the first in place: in an
    invocation that makes any call of the second stage, no call of the
    first stage failed and none of them is a create. *)
Theorem second_stage_needs_first_in_place c key w k ev ev1 :
  In ev (calls (snd (runSync c key w k))) ->
  stageOf ev = Some ManagementHub ->
  In ev1 (calls (snd (runSync c key w k))) ->
  stageOf ev1 = Some Subscription ->
  resultError ev1 = None /\ isCreate ev1 = false.
Proof.
  sync_cases; intros Hin Hstage Hin1 Hstage1;
    repeat (destruct Hin as [<- | Hin]; [try discriminate Hstage |]);
    try contradiction;
    repeat (destruct Hin1 as [<- | Hin1];
            [first [discriminate Hstage1 | split; reflexivity] |]);
    contradiction.
Qed.

(** ** Errors *)

(** X5. A returned error is never made up: when an invocation returns an
    error, that error is the one some call of the invocation returned, or
    the one the builder of the MCH work returned for the managed cluster
    read. *)
Theorem returned_error_comes_from_a_call c key w k err :
  fst (runSync c key w k) = Returned (Some err) ->
  (exists ev, In ev (calls (snd (runSync c key w k))) /\
              resultError ev = Some err) \/
  (exists managedCluster,
      clusterLister_Get c key w = Ok managedCluster /\
      CreateMCHManifestwork key (userDefinedMCHOf managedCluster) = Err err).
Proof.
  sync_cases; intros Hret; try discriminate Hret; injection Hret as <-;
    first [ right; eexists; split; [reflexivity | eassumption]
          | left; eexists; split; [pick_in | reflexivity] ].
Qed.

(** X6. Success hides no failure but absence: when an invocation returns
    nil, the only calls of it that failed are the lookup of the managed
    cluster or the lookup of the subscription work, and they failed with
    not-found. *)
Theorem success_reports_no_failure c key w k ev e :
  fst (runSync c key w k) = Returned None ->
  In ev (calls (snd (runSync c key w k))) ->
  resultError ev = Some e ->
  IsNotFound e = true /\
  (ev = EvClusterGet key (Err e) \/
   ev = EvWorkGet Subscription key
          ((key +:+ "-") +:+ HOH_HUB_CLUSTER_SUBSCRIPTION) (Err e)).
Proof.
  sync_cases; intros Hret Hin He; try discriminate Hret;
    repeat (destruct Hin as [<- | Hin];
            [first [discriminate He | injection He as <-; auto] |]);
    try contradiction.
Qed.

(** X7. Failures stop the invocation at once: a call that fails, other
    than a lookup reporting not-found, is the last call of the invocation
    and its error is what the invocation returns, unchanged. *)
Theorem failure_ends_invocation c key w k ev e :
  In ev (calls (snd (runSync c key w k))) ->
  resultError ev = Some e ->
  ~ notFoundLookup ev ->
  (exists before, calls (snd (runSync c key w k)) = (before ++ [ev])%list) /\
  fst (runSync c key w k) = Returned (Some e).
Proof.
  sync_cases; intros Hin He Hnb;
    repeat (destruct Hin as [<- | Hin];
            [first [ discriminate He
                   | exfalso; apply Hnb; simpl; assumption
                   | injection He as <-; split; [last_call | reflexivity] ] |]);
    contradiction.
Qed.

(** ** Writes *)

(** X8. A create is issued only for a work just reported absent, and
    nothing follows it: every create of an invocation comes after a lookup
    of the same stage and namespace that reported not-found, and it is the
    last call of the invocation. *)
Theorem create_follows_not_found c key w k s ns obj r :
  In (EvCreate s ns obj r) (calls (snd (runSync c key w k))) ->
  exists name err before after,
    calls (snd (runSync c key w k))
      = (before ++ EvCreate s ns obj r :: after)%list /\
    In (EvWorkGet s ns name (Err err)) before /\
    IsNotFound err = true /\
    after = [].
Proof.
  sync_cases; intros Hin; split_In Hin;
    first
      [ at_prefix uconstr:([_; _])
          ltac:(split; [pick_in |]; split; [assumption | reflexivity])
      | at_prefix uconstr:([_; _; _; _])
          ltac:(split; [pick_in |]; split; [assumption | reflexivity])
      | at_prefix uconstr:([_; _; _; _; _])
          ltac:(split; [pick_in |]; split; [assumption | reflexivity]) ].
Qed.

(** X9. An update is issued only after the comparison asked for it:
    every update of an invocation comes after a comparison of the same
    stage that answered true for an existing and a desired work, and the
    update carries that desired work with the resource version of that
    existing work. *)
Theorem update_follows_divergence c key w k s ns obj r :
  In (EvUpdate s ns obj r) (calls (snd (runSync c key w k))) ->
  exists existing desired before after,
    calls (snd (runSync c key w k))
      = (before ++ EvUpdate s ns obj r :: after)%list /\
    In (EvEnsure s existing desired (Ok true)) before /\
    EnsureManifestWork existing desired = Ok true /\
    obj = setResourceVersion desired (ResourceVersion (mw_ObjectMeta existing)).
Proof.
  sync_cases; intros Hin; split_In Hin;
    first
      [ at_prefix uconstr:([_; _; _])
          ltac:(split; [pick_in |]; split; [assumption | reflexivity])
      | at_prefix uconstr:([_; _; _; _; _])
          ltac:(split; [pick_in |]; split; [assumption | reflexivity])
      | at_prefix uconstr:([_; _; _; _; _; _])
          ltac:(split; [pick_in |]; split; [assumption | reflexivity]) ].
Qed.

(** X10. What an invocation writes is what the builders made, in the
    namespace of the key: a create carries the desired work of its stage,
    an update that work with only the resource version replaced. *)
Theorem written_content_is_desired c key w k ev :
  In ev (calls (snd (runSync c key w k))) -> desiredContent c key w ev.
Proof.
  sync_cases; intros Hin;
    repeat (destruct Hin as [<- | Hin];
            [solve [repeat first [exact I | reflexivity | eassumption
                                 | split | eexists]] |]);
    contradiction.
Qed.

(** X11. An invocation makes, for each stage, at most one lookup, at most
    one comparison and at most one write; so it writes at most twice. *)
Theorem at_most_one_call_per_stage c key w k s :
  countCalls isLookup s (calls (snd (runSync c key w k))) <= 1 /\
  countCalls isCompare s (calls (snd (runSync c key w k))) <= 1 /\
  countCalls isWrite s (calls (snd (runSync c key w k))) <= 1.
Proof.
  sync_cases; destruct s; cbv [countCalls]; simpl; lia.
Qed.

(** ** The loops over the status *)

Lemma decideStates_skip before rest :
  Forall otherState before ->
  decideStates (before ++ rest) = decideStates rest.
Proof.
  induction 1 as [| state before (s & -> & Hne) _ IH]; simpl; [reflexivity |].
  destruct (String.eqb_spec s "AtLatestKnown"); [contradiction | exact IH].
Qed.

Lemma decideStates_app l1 l2 :
  decideStates (l1 ++ l2) =
  match decideStates l1 with
  | GateClosed => decideStates l2
  | g => g
  end.
Proof.
  induction l1 as [| [s |] l1 IH]; simpl; [reflexivity | | reflexivity].
  destruct (String.eqb s "AtLatestKnown"); [reflexivity | exact IH].
Qed.

Lemma otherState_Some s : s <> "AtLatestKnown" -> otherState (Some s).
Proof. intros Hne. exists s. auto. Qed.

Lemma decideStates_closed states :
  decideStates states = GateClosed <-> Forall otherState states.
Proof.
  split.
  - induction states as [| [s |] rest IH]; simpl; [constructor | | discriminate].
    destruct (String.eqb_spec s "AtLatestKnown"); [discriminate |].
    intros Hrest. constructor; [apply otherState_Some; assumption | auto].
  - intros Hall. rewrite <- (app_nil_r states).
    rewrite (decideStates_skip _ [] Hall). reflexivity.
Qed.

Lemma decideStates_open states :
  decideStates states = GateOpen <->
  exists before after,
    states = (before ++ Some "AtLatestKnown" :: after)%list /\
    Forall otherState before.
Proof.
  split.
  - induction states as [| [s |] rest IH]; simpl; [discriminate | | discriminate].
    destruct (String.eqb_spec s "AtLatestKnown") as [-> | Hne].
    + intros _. exists [], rest. split; [reflexivity | constructor].
    + intros Hrest. destruct (IH Hrest) as (b & a & -> & Hall).
      exists (Some s :: b), a. split; [reflexivity |].
      constructor; [apply otherState_Some; assumption | exact Hall].
  - intros (b & a & -> & Hall). rewrite (decideStates_skip _ _ Hall). reflexivity.
Qed.

Lemma decideStates_fault states :
  decideStates states = GateFault <->
  exists before after,
    states = (before ++ None :: after)%list /\ Forall otherState before.
Proof.
  split.
  - induction states as [| [s |] rest IH]; simpl; [discriminate | |].
    + destruct (String.eqb_spec s "AtLatestKnown") as [-> | Hne]; [discriminate |].
      intros Hrest. destruct (IH Hrest) as (b & a & -> & Hall).
      exists (Some s :: b), a. split; [reflexivity |].
      constructor; [apply otherState_Some; assumption | exact Hall].
    + intros _. exists [], rest. split; [reflexivity | constructor].
  - intros (b & a & -> & Hall). rewrite (decideStates_skip _ _ Hall). reflexivity.
Qed.

Lemma gateValues_decide values :
  gateValues values = decideStates (stateStrings values).
Proof.
  unfold stateStrings.
  induction values as [| value rest IH]; simpl; [reflexivity |].
  destruct (String.eqb (fb_Name value) "state"); simpl; [| exact IH].
  destruct (fv_String (fb_Value value)) as [s |]; [| reflexivity].
  destruct (String.eqb s "AtLatestKnown"); [reflexivity | exact IH].
Qed.

Lemma stateStrings_app l1 l2 :
  stateStrings (l1 ++ l2) = (stateStrings l1 ++ stateStrings l2)%list.
Proof.
  unfold stateStrings. rewrite List.filter_app, List.map_app. reflexivity.
Qed.

Lemma gateManifests_decide manifests :
  gateManifests manifests
  = decideStates (stateStrings (subscriptionValues manifests)).
Proof.
  induction manifests as [| conditions rest IH]; simpl; [reflexivity |].
  rewrite stateStrings_app, decideStates_app.
  destruct (String.eqb (rm_Kind (ResourceMeta conditions)) "Subscription").
  - rewrite <- gateValues_decide.
    destruct (gateValues (Values (StatusFeedbacks conditions)));
      [reflexivity | exact IH | reflexivity].
  - simpl. exact IH.
Qed.

(** The two nested loops are one scan of the state strings. *)
Lemma loops_decide_on_state_strings body manifests st :
  forManifests body manifests st =
  match decideStates (stateStrings (subscriptionValues manifests)) with
  | GateOpen => (body;; returnNil) st
  | GateClosed => (Next tt, st)
  | GateFault => (Stop Panicked, st)
  end.
Proof.
  rewrite forManifests_gate, gateManifests_decide. reflexivity.
Qed.

(** X12. What the two nested loops do depends only on the strings of the
    values named "state" of the manifests of kind "Subscription", taken in
    order; other manifests and other values are skipped.  The first string
    that is unset or "AtLatestKnown" decides: "AtLatestKnown" runs the body
    once and returns, an unset string panics, and when every string is set
    to something else the loops end without running the body. *)
Theorem gate_loop_cases body manifests st :
  (forall before after,
      stateStrings (subscriptionValues manifests)
        = (before ++ Some "AtLatestKnown" :: after)%list ->
      Forall otherState before ->
      forManifests body manifests st = (body;; returnNil) st) /\
  (forall before after,
      stateStrings (subscriptionValues manifests)
        = (before ++ None :: after)%list ->
      Forall otherState before ->
      forManifests body manifests st = (Stop Panicked, st)) /\
  (Forall otherState (stateStrings (subscriptionValues manifests)) ->
   forManifests body manifests st = (Next tt, st)).
Proof.
  rewrite loops_decide_on_state_strings. split; [| split].
  - intros before after Hs Hall.
    rewrite (proj2 (decideStates_open _)); [reflexivity | eauto].
  - intros before after Hs Hall.
    rewrite (proj2 (decideStates_fault _)); [reflexivity | eauto].
  - intros Hall. rewrite (proj2 (decideStates_closed _) Hall). reflexivity.
Qed.

(** X13. When an invocation panics: exactly when the managed cluster and
    its subscription work are found, the handling of the subscription lets
    the invocation reach the loops, and among the state strings of the
    status read an unset one comes before any "AtLatestKnown". *)
Theorem sync_panics_exactly_when c key w k :
  fst (runSync c key w k) = Panicked <->
  exists managedCluster subscription before after,
    clusterLister_Get c key w = Ok managedCluster /\
    workLister_Get c key ((key +:+ "-") +:+ HOH_HUB_CLUSTER_SUBSCRIPTION) w
      = Ok subscription /\
    reachesGate c key w subscription /\
    statesOf (Status subscription) = (before ++ None :: after)%list /\
    Forall otherState before.
Proof.
  unfold reachesGate, statesOf. split.
  - sync_cases; intros Hp; try discriminate Hp;
      match goal with
      | Hg : gateManifests _ = GateFault |- _ =>
          rewrite gateManifests_decide in Hg;
          apply decideStates_fault in Hg;
          destruct Hg as (pre & post & Hpre & Hall)
      end;
      eexists _, _, pre, post; (split; [reflexivity |]); (split; [reflexivity |]);
      (split; [| split; assumption]);
      first [ left; assumption | right; split; [assumption | eauto] ].
  - intros (mc & sub & pre & post & Hmc & Hsub & Hreach & Hpre & Hall).
    assert (Hg : gateManifests (Manifests (ResourceStatus (Status sub)))
                 = GateFault).
    { rewrite gateManifests_decide. apply decideStates_fault. eauto. }
    unfold_sync. sync_with Hmc. sync_with Hsub.
    destruct Hreach as [Hens | (Hens & r & w' & Hupd)].
    + sync_with Hens. rewrite forManifests_gate, Hg. reflexivity.
    + sync_with Hens. sync_with Hupd. rewrite forManifests_gate, Hg. reflexivity.
Qed.

(** ** The second stage *)

Lemma gate_open_when_reported status :
  stateStringsPresent status -> reportsAtLatestKnown status ->
  gate status = GateOpen.
Proof.
  intros Hpresent (value & Hvalue & Hstring).
  destruct (gate status) eqn:Hg; [reflexivity | |].
  - destruct (gate_closed_values _ Hg _ Hvalue) as (s & Hs & Hne). congruence.
  - destruct (gate_total _ Hpresent Hg).
Qed.

(** X14. The second stage is not skipped: when the subscription work is
    in place, its status reports "AtLatestKnown" with every state string
    set, and the builder makes the desired MCH work, the invocation looks
    up the MCH work. *)
Theorem second_stage_attempted c key w k managedCluster subscription desiredMCH :
  clusterLister_Get c key w = Ok managedCluster ->
  workLister_Get c key ((key +:+ "-") +:+ HOH_HUB_CLUSTER_SUBSCRIPTION) w
    = Ok subscription ->
  reachesGate c key w subscription ->
  stateStringsPresent (Status subscription) ->
  reportsAtLatestKnown (Status subscription) ->
  CreateMCHManifestwork key (userDefinedMCHOf managedCluster) = Ok desiredMCH ->
  exists r,
    In (EvWorkGet ManagementHub key ((key +:+ "-") +:+ HOH_HUB_CLUSTER_MCH) r)
       (calls (snd (runSync c key w k))).
Proof.
  intros Hmc Hsub Hreach Hpresent Hreport Hbuild.
  pose proof (gate_open_when_reported _ Hpresent Hreport) as Hg. unfold gate in Hg.
  unfold_sync. sync_with Hmc. sync_with Hsub.
  destruct Hreach as [Hens | (Hens & r & w' & Hupd)].
  - sync_with Hens. rewrite forManifests_gate, Hg. unfold_sync.
    sync_with Hbuild.
    repeat sync_step; eexists; pick_in.
  - sync_with Hens. sync_with Hupd. rewrite forManifests_gate, Hg. unfold_sync.
    sync_with Hbuild.
    repeat sync_step; eexists; pick_in.
Qed.

(** X15. The override and a failing builder: the builder of the MCH work
    is given the value of the annotation "mch" of the managed cluster, the
    empty string when the cluster has no annotations or no such key; when
    the builder fails, whether or not the subscription was updated first,
    its error is returned and no call of the second stage is made. *)
Theorem mch_build_failure_returned c key w k managedCluster subscription err :
  clusterLister_Get c key w = Ok managedCluster ->
  workLister_Get c key ((key +:+ "-") +:+ HOH_HUB_CLUSTER_SUBSCRIPTION) w
    = Ok subscription ->
  reachesGate c key w subscription ->
  gate (Status subscription) = GateOpen ->
  CreateMCHManifestwork key
    (mapIndex (Annotations (mc_ObjectMeta managedCluster)) "mch") = Err err ->
  fst (runSync c key w k) = Returned (Some err) /\
  (forall ev, In ev (calls (snd (runSync c key w k))) ->
              stageOf ev <> Some ManagementHub).
Proof.
  intros Hmc Hsub Hreach Hg Hbuild. unfold gate in Hg.
  assert (Hud : userDefinedMCHOf managedCluster
                = mapIndex (Annotations (mc_ObjectMeta managedCluster)) "mch").
  { unfold userDefinedMCHOf.
    destruct (Annotations (mc_ObjectMeta managedCluster)); reflexivity. }
  unfold_sync. sync_with Hmc. sync_with Hsub.
  destruct Hreach as [Hens | (Hens & r & w' & Hupd)].
  - sync_with Hens. rewrite forManifests_gate, Hg. unfold_sync.
    rewrite Hud. sync_with Hbuild.
    split; [reflexivity |].
    intros ev Hin. simpl in Hin.
    repeat (destruct Hin as [<- | Hin]; [discriminate |]). contradiction.
  - sync_with Hens. sync_with Hupd. rewrite forManifests_gate, Hg. unfold_sync.
    rewrite Hud. sync_with Hbuild.
    split; [reflexivity |].
    intros ev Hin. simpl in Hin.
    repeat (destruct Hin as [<- | Hin]; [discriminate |]). contradiction.
Qed.

(** X16. sync reads nothing of the managed cluster but the annotation
    "mch": it checks neither the label "hoh" nor the name.  Two controllers
    with the same work lister and client, whose cluster listers return
    managed clusters with the same value of that annotation, end the same
    way, leave the same hub and make the same calls after the lookup of
    the cluster. *)
Theorem sync_reads_only_the_mch_annotation c1 c2 key w k mc1 mc2 :
  workclient_Create c1 = workclient_Create c2 ->
  workclient_Update c1 = workclient_Update c2 ->
  workLister_Get c1 = workLister_Get c2 ->
  clusterLister_Get c1 key w = Ok mc1 ->
  clusterLister_Get c2 key w = Ok mc2 ->
  mapIndex (Annotations (mc_ObjectMeta mc1)) "mch"
    = mapIndex (Annotations (mc_ObjectMeta mc2)) "mch" ->
  fst (runSync c1 key w k) = fst (runSync c2 key w k) /\
  hub (snd (runSync c1 key w k)) = hub (snd (runSync c2 key w k)) /\
  tl (calls (snd (runSync c1 key w k))) = tl (calls (snd (runSync c2 key w k))).
Proof.
  intros Hcreate Hupdate Hget Hmc1 Hmc2 Hann.
  assert (Hud : userDefinedMCHOf mc1 = userDefinedMCHOf mc2).
  { unfold userDefinedMCHOf.
    destruct (Annotations (mc_ObjectMeta mc1)), (Annotations (mc_ObjectMeta mc2));
      simpl in *; auto. }
  unfold_sync. sync_with Hmc1. sync_with Hmc2.
  rewrite Hcreate, Hupdate, Hget, Hud.
  repeat sync_step; repeat split; reflexivity.
Qed.

End FurtherProperties.

(** ** Concrete runs for the further properties *)

(** Deleting a value without metadata adds nothing and does not fault;
    labelling cluster2 hoh=disabled adds the key of the old object. *)
Lemma cluster_event_routing_witness :
  onClusterNotification (Deleted (ObjOther "tombstone")) <> KeyFault /\
  onClusterNotification
    (Updated (ObjManagedCluster enabledCluster2)
       (ObjManagedCluster disabledCluster)) = Enqueued "cluster2".
Proof.
  split.
  - exact (proj1 (cluster_event_routing (Deleted (ObjOther "tombstone")))).
  - apply (proj2 (cluster_event_routing
                    (Updated (ObjManagedCluster enabledCluster2)
                       (ObjManagedCluster disabledCluster)))).
    exists (ObjManagedCluster enabledCluster2), (mc_ObjectMeta enabledCluster2).
    split; [right; split; reflexivity |]. split; [reflexivity |].
    split; [discriminate |]. split; [discriminate | reflexivity].
Defined.

(** An event on the MCH work of cluster1 adds the key cluster1, and an
    invocation for cluster1 looks that work up under its own name. *)
Lemma work_event_leads_to_its_lookup_witness :
  exists m s,
    Accessor (ObjManifestWork desiredMCH1) = Ok m /\
    "cluster1" = Namespace m /\
    Name m = @workName referencePackage "cluster1" s /\
    forall (c : @clusterController Store) w k ns name r,
      In (EvWorkGet s ns name r)
         (calls (snd (@runSync referencePackage Store c "cluster1" w k))) ->
      ns = Namespace m /\ name = Name m.
Proof.
  apply (@work_event_leads_to_its_lookup referencePackage Store
           (ObjManifestWork desiredMCH1) "cluster1").
  reflexivity.
Defined.

(** Scenario A on the reference hub: one create, of the subscription. *)
Lemma subscription_absent_create_only_witness :
  fst (referenceRun hubJoined) = Returned None /\
  writes (calls (snd (referenceRun hubJoined)))
    = [EvCreate Subscription "cluster1" desiredSubscription1
         (Ok (stored desiredSubscription1 emptyStatus 2))].
Proof.
  unfold referenceRun.
  erewrite (@subscription_absent_create_only referencePackage Store
              storeController "cluster1" hubJoined NewResourceCache cluster1
              notFoundWork (Ok (stored desiredSubscription1 emptyStatus 2)));
    try reflexivity.
  split; reflexivity.
Defined.

(** On the hub whose subscription reports AtLatestKnown the MCH work is
    looked up, and the comparison of the subscription neither failed nor
    created anything. *)
Lemma second_stage_needs_first_in_place_witness :
  resultError
    (EvEnsure Subscription
       (stored desiredSubscription1 (subscriptionStatus (Some "AtLatestKnown")) 2)
       desiredSubscription1 (Ok false)) = None /\
  isCreate
    (EvEnsure Subscription
       (stored desiredSubscription1 (subscriptionStatus (Some "AtLatestKnown")) 2)
       desiredSubscription1 (Ok false)) = false.
Proof.
  apply (@second_stage_needs_first_in_place referencePackage Store
           storeController "cluster1" hubSubscribed NewResourceCache
           (EvWorkGet ManagementHub "cluster1" mchName (Err notFoundWork))).
  - vm_compute. do 3 right. left. reflexivity.
  - reflexivity.
  - vm_compute. do 2 right. left. reflexivity.
  - reflexivity.
Defined.

(** The not-found error returned after the MCH work is created is the one
    its lookup returned. *)
Lemma returned_error_comes_from_a_call_witness :
  (exists ev, In ev (calls (snd (referenceRun hubSubscribed))) /\
              resultError ev = Some notFoundWork) \/
  (exists managedCluster,
      storeClusterGet "cluster1" hubSubscribed = Ok managedCluster /\
      @CreateMCHManifestwork referencePackage "cluster1"
        (userDefinedMCHOf managedCluster) = Err notFoundWork).
Proof.
  apply (@returned_error_comes_from_a_call referencePackage Store
           storeController "cluster1" hubSubscribed NewResourceCache notFoundWork).
  reflexivity.
Defined.

(** Scenario A returns nil; its one failed call is the lookup of the
    subscription, with not-found. *)
Lemma success_reports_no_failure_witness :
  IsNotFound notFoundWork = true /\
  (EvWorkGet Subscription "cluster1" subscriptionName (Err notFoundWork)
     = EvClusterGet "cluster1" (Err notFoundWork) \/
   EvWorkGet Subscription "cluster1" subscriptionName (Err notFoundWork)
     = EvWorkGet Subscription "cluster1" subscriptionName (Err notFoundWork)).
Proof.
  apply (@success_reports_no_failure referencePackage Store storeController
           "cluster1" hubJoined NewResourceCache).
  - reflexivity.
  - vm_compute. right. left. reflexivity.
  - reflexivity.
Defined.

(** While the API server refuses writes, the refused create of the
    subscription is the last call and its error is returned. *)
Lemma failure_ends_invocation_witness :
  (exists before,
      calls (snd (@runSync referencePackage Store outageController "cluster1"
                    hubJoined NewResourceCache))
      = (before ++ [EvCreate Subscription "cluster1" desiredSubscription1
                      (Err serverDown)])%list) /\
  fst (@runSync referencePackage Store outageController "cluster1" hubJoined
         NewResourceCache) = Returned (Some serverDown).
Proof.
  apply (@failure_ends_invocation referencePackage Store outageController
           "cluster1" hubJoined NewResourceCache).
  - vm_compute. do 2 right. left. reflexivity.
  - reflexivity.
  - intros [].
Defined.

(** The create of Scenario A follows the not-found lookup and ends the
    invocation. *)
Lemma create_follows_not_found_witness :
  exists name err before after,
    calls (snd (referenceRun hubJoined))
      = (before ++ EvCreate Subscription "cluster1" desiredSubscription1
                     (Ok (stored desiredSubscription1 emptyStatus 2))
                :: after)%list /\
    In (EvWorkGet Subscription "cluster1" name (Err err)) before /\
    IsNotFound err = true /\
    after = [].
Proof.
  apply (@create_follows_not_found referencePackage Store storeController
           "cluster1" hubJoined NewResourceCache).
  vm_compute. do 2 right. left. reflexivity.
Defined.

(** The update of the outdated subscription follows a comparison that
    answered true. *)
Lemma update_follows_divergence_witness :
  exists existing desired before after,
    calls (snd (referenceRun hubOutdated))
      = (before ++ EvUpdate Subscription "cluster1" subscriptionUpdate1
                     (Ok subscriptionUpdated1) :: after)%list /\
    In (EvEnsure Subscription existing desired (Ok true)) before /\
    @EnsureManifestWork referencePackage existing desired = Ok true /\
    subscriptionUpdate1
      = setResourceVersion desired (ResourceVersion (mw_ObjectMeta existing)).
Proof.
  apply (@update_follows_divergence referencePackage Store storeController
           "cluster1" hubOutdated NewResourceCache).
  vm_compute. do 3 right. left. reflexivity.
Defined.

(** The MCH work created for cluster1 is the one the builder made for it. *)
Lemma written_content_is_desired_witness :
  @desiredContent referencePackage Store storeController "cluster1" hubSubscribed
    (EvCreate ManagementHub "cluster1" desiredMCH1
       (Ok (stored desiredMCH1 emptyStatus 3))).
Proof.
  apply (@written_content_is_desired referencePackage Store storeController
           "cluster1" hubSubscribed NewResourceCache).
  vm_compute. do 4 right. left. reflexivity.
Defined.

(** One state string, "AtLatestKnown": the body runs.  One state string,
    unset: the loops panic. *)
Lemma gate_loop_cases_witness :
  let body := @syncMCH referencePackage Store storeController "cluster1" cluster1 in
  let st := {| hub := hubSubscribed; cache := NewResourceCache; calls := [] |} in
  forManifests body
    (Manifests (ResourceStatus (subscriptionStatus (Some "AtLatestKnown")))) st
    = (body;; returnNil) st /\
  forManifests body
    (Manifests (ResourceStatus (subscriptionStatus None))) st
    = (Stop Panicked, st).
Proof.
  intros body st. split.
  - apply (proj1 (gate_loop_cases body _ st)) with (before := []) (after := []).
    + reflexivity.
    + constructor.
  - apply (proj1 (proj2 (gate_loop_cases body _ st)))
      with (before := []) (after := []).
    + reflexivity.
    + constructor.
Defined.

(** The hub whose state string is unset makes the invocation panic. *)
Lemma sync_panics_exactly_when_witness :
  fst (referenceRun hubStateUnset) = Panicked.
Proof.
  apply (@sync_panics_exactly_when referencePackage Store storeController
           "cluster1" hubStateUnset NewResourceCache).
  exists cluster1, (stored desiredSubscription1 (subscriptionStatus None) 2), [], [].
  split; [reflexivity |]. split; [reflexivity |].
  split; [left; reflexivity |]. split; [reflexivity | constructor].
Defined.

(** With the signal present the MCH work of cluster1 is looked up. *)
Lemma second_stage_attempted_witness :
  exists r,
    In (EvWorkGet ManagementHub "cluster1" mchName r)
       (calls (snd (referenceRun hubSubscribed))).
Proof.
  apply (@second_stage_attempted referencePackage Store storeController
           "cluster1" hubSubscribed NewResourceCache cluster1
           (stored desiredSubscription1
              (subscriptionStatus (Some "AtLatestKnown")) 2)
           desiredMCH1).
  - reflexivity.
  - reflexivity.
  - left. reflexivity.
  - intros value (conditions & Hin & _ & Hvalue & _).
    destruct Hin as [<- | []]. destruct Hvalue as [<- | []]. discriminate.
  - exists {| fb_Name := "state";
              fb_Value := {| fv_Integer := None;
                             fv_String := Some "AtLatestKnown";
                             fv_Boolean := None |} |}.
    split; [| reflexivity].
    eexists. split; [left; reflexivity |]. split; [reflexivity |].
    split; [left; reflexivity | reflexivity].
  - reflexivity.
Defined.

(** An override that is not a JSON object makes the strict builder fail:
    the error is returned and no call of the second stage is made, with
    the subscription as desired and with the subscription updated first. *)
Lemma mch_build_failure_returned_witness :
  (fst (@runSync strictPackage Store storeController "cluster1"
          (hubOverride "not a manifest") NewResourceCache)
     = Returned (Some invalidOverride) /\
   forall ev,
     In ev (calls (snd (@runSync strictPackage Store storeController "cluster1"
                          (hubOverride "not a manifest") NewResourceCache))) ->
     stageOf ev <> Some ManagementHub) /\
  (fst (@runSync strictPackage Store storeController "cluster1"
          (hubOutdatedOverride "not a manifest") NewResourceCache)
     = Returned (Some invalidOverride) /\
   forall ev,
     In ev (calls (snd (@runSync strictPackage Store storeController "cluster1"
                          (hubOutdatedOverride "not a manifest")
                          NewResourceCache))) ->
     stageOf ev <> Some ManagementHub).
Proof.
  split.
  - apply (@mch_build_failure_returned strictPackage Store storeController
             "cluster1" (hubOverride "not a manifest") NewResourceCache
             (cluster1With "not a manifest")
             (stored desiredSubscription1
                (subscriptionStatus (Some "AtLatestKnown")) 2));
      try reflexivity.
    left. reflexivity.
  - apply (@mch_build_failure_returned strictPackage Store storeController
             "cluster1" (hubOutdatedOverride "not a manifest") NewResourceCache
             (cluster1With "not a manifest")
             (stored outdatedSubscription1
                (subscriptionStatus (Some "AtLatestKnown")) 2));
      try reflexivity.
    right. split; [reflexivity |]. eexists _, _. reflexivity.
Defined.

(** cluster1 shown with the label hoh=disabled is reconciled like
    cluster1 shown without it. *)
Lemma sync_reads_only_the_mch_annotation_witness :
  fst (@runSync referencePackage Store storeController "cluster1" hubSubscribed
         NewResourceCache)
    = fst (@runSync referencePackage Store disabledViewController "cluster1"
             hubSubscribed NewResourceCache) /\
  hub (snd (@runSync referencePackage Store storeController "cluster1"
              hubSubscribed NewResourceCache))
    = hub (snd (@runSync referencePackage Store disabledViewController
                  "cluster1" hubSubscribed NewResourceCache)) /\
  tl (calls (snd (@runSync referencePackage Store storeController "cluster1"
                    hubSubscribed NewResourceCache)))
    = tl (calls (snd (@runSync referencePackage Store disabledViewController
                        "cluster1" hubSubscribed NewResourceCache))).
Proof.
  apply (@sync_reads_only_the_mch_annotation referencePackage Store
           storeController disabledViewController "cluster1" hubSubscribed
           NewResourceCache cluster1 (labelDisabled cluster1));
    reflexivity.
Defined.
